(** * Resources: save orchestration, resolver chain and in-memory registry

    A shallow embedding of [packages/core/src/common/resource.ts]:
    the [Resource.save] orchestrator with its change-size heuristic, the
    [DefaultResourceProvider.get] resolver chain, and the in-memory
    [MutableResource] / [InMemoryResources] pair.

    Asynchronous functions are modelled as one sequential task: every awaited
    method is a transformer of the world it runs in that either returns a value
    or raises, and the orchestrating functions additionally record which
    methods they invoked, in order.  A string stands for the sequence of its
    code units, so that [String.length] is the [length] property. *)

From stdpp Require Import base option list strings gmap.
From Stdlib Require Import ZArith Lia.

Local Open Scope string_scope.
Local Open Scope nat_scope.
Local Open Scope list_scope.

(** ** External collaborators *)

(** Modelled from the spec: the identifier type [URI] (../common/uri) is
    external; all the code uses of it is its stable string serialisation
    [toString], so an identifier is represented by that string. *)
Record URI := mkURI { toString : string }.

(** What a [throw] or a rejected promise carries.  [Error] is the built-in
    [new Error(message)]; [ApplicationError] is a structured error with a
    numeric code and a [{ uri }] payload; [TypeError] is what the runtime
    raises when a method is called on something that is not an object. *)
Inductive JsError :=
| Error (message : string)
| ApplicationError (code : Z) (message : string) (data : URI)
| TypeError (message : string).

(** Modelled from the spec: [ApplicationError.declare(code, ...)]
    (./application-error) yields an error kind whose [is] test accepts exactly
    the structured errors carrying that code. *)
Definition ApplicationError_is (code : Z) (e : JsError) : bool :=
  match e with
  | ApplicationError c _ _ => Z.eqb c code
  | _ => false
  end.

Module ResourceError.
Module NotFound.
Definition code : Z := (-40000)%Z.
Definition is_ (e : JsError) : bool := ApplicationError_is code e.
End NotFound.
Module OutOfSync.
Definition code : Z := (-40001)%Z.
Definition is_ (e : JsError) : bool := ApplicationError_is code e.
End OutOfSync.
End ResourceError.

(** The completion of a call: a normal return or a raised error. *)
Inductive Outcome (A : Type) :=
| Return (a : A)
| Throw (e : JsError).
Arguments Return {A} a.
Arguments Throw {A} e.

(** ** Option records *)

Record ResourceSaveOptions (ResourceVersion : Type) := {
  encoding : option string;
  overwriteEncoding : option string;
  version : option ResourceVersion
}.
Arguments encoding {ResourceVersion} _.
Arguments overwriteEncoding {ResourceVersion} _.
Arguments version {ResourceVersion} _.

(** ** Asynchronous tasks

    A [Method] is an awaited method of some object: run in a world, it leaves
    a world and either returns or raises.  An [Async] task is a function of
    this file built from such calls; besides the outcome and the final world it
    yields the list of the calls it made (and of what it wrote to the console),
    oldest first. *)

Definition Method (World A : Type) : Type := World → Outcome A * World.

Definition Async (Ev World A : Type) : Type :=
  World → Outcome A * World * list Ev.

Section Async.
Context {Ev World : Type}.

#[export] Instance Async_ret : MRet (Async Ev World) :=
  λ A a w, (Return a, w, []).

#[export] Instance Async_bind : MBind (Async Ev World) :=
  λ A B k m w,
    match m w with
    | (Return a, w1, t1) =>
        match k a w1 with
        | (o, w2, t2) => (o, w2, (t1 ++ t2)%list)
        end
    | (Throw e, w1, t1) => (Throw e, w1, t1)
    end.

(** [try { m } catch (e) { handler e }] *)
Definition try_catch {A} (m : Async Ev World A)
    (handler : JsError → Async Ev World A) : Async Ev World A :=
  λ w,
    match m w with
    | (Return a, w1, t1) => (Return a, w1, t1)
    | (Throw e, w1, t1) =>
        match handler e w1 with
        | (o, w2, t2) => (o, w2, (t1 ++ t2)%list)
        end
    end.

Definition throw {A} (e : JsError) : Async Ev World A :=
  λ w, (Throw e, w, []).

(** [await obj.method(args)], recorded as the event [ev]. *)
Definition invoke {A} (ev : Ev) (method : Method World A) : Async Ev World A :=
  λ w, match method w with (o, w1) => (o, w1, [ev]) end.

(** An effect that only leaves a record, such as [console.error]. *)
Definition emit (ev : Ev) : Async Ev World unit :=
  λ w, (Return (), w, [ev]).

(** Reading a property of an object that lives in the world. *)
Definition read {A} (getter : World → A) : Async Ev World A :=
  λ w, (Return (getter w), w, []).
End Async.

(** Modelled from the spec: the cancellation token (./cancellation) exposes
    one boolean query; its answer may change as the world does. *)
Record CancellationToken (World : Type) := {
  isCancellationRequested : World → bool
}.
Arguments isCancellationRequested {World} _ _.

(** ** The resource contract and the save orchestrator *)

Module Resource.

(** [interface Resource]: the members the functions of this file use.  An
    optional member is [None] when the resource does not have it. *)
Record Resource (Change ResourceVersion World : Type) := {
  uri : URI;
  readContents : Method World string;
  saveContents :
    option (string → option (ResourceSaveOptions ResourceVersion) →
            Method World unit);
  saveContentChanges :
    option (list Change → option (ResourceSaveOptions ResourceVersion) →
            Method World unit);
  dispose : Method World unit
}.
Arguments uri {_ _ _} _.
Arguments readContents {_ _ _} _.
Arguments saveContents {_ _ _} _.
Arguments saveContentChanges {_ _ _} _.
Arguments dispose {_ _ _} _.

(** What [save] is observed to do. *)
Inductive Event (Change ResourceVersion : Type) :=
| CallSaveContents (content : string)
    (options : option (ResourceSaveOptions ResourceVersion))
| CallSaveContentChanges (changes : list Change)
    (options : option (ResourceSaveOptions ResourceVersion))
| ConsoleError (message : string) (e : JsError).
Arguments CallSaveContents {_ _} _ _.
Arguments CallSaveContentChanges {_ _} _ _.
Arguments ConsoleError {_ _} _ _.

Section WithWorld.
(** [Change] is [TextDocumentContentChangeEvent] and [stringify] is
    [JSON.stringify] on it; [ResourceVersion] is the opaque version token;
    [World] is whatever state the resources' methods read and write. *)
Context {Change ResourceVersion World : Type}.
Variable stringify : Change → string.

Abbreviation SaveOptions := (option (ResourceSaveOptions ResourceVersion)).

Record SaveContext := {
  content : string;
  changes : option (list Change);
  options : SaveOptions
}.

(** [shouldSaveContent]: the loop over [changes] with its running total and
    its early exit. *)
Fixpoint shouldSaveContent_loop (contentLength contentChangesLength : nat)
    (changes : list Change) : bool :=
  match changes with
  | [] => Nat.ltb contentLength contentChangesLength
  | change :: rest =>
      let contentChangesLength :=
        contentChangesLength + String.length (stringify change) in
      if Nat.ltb contentLength contentChangesLength then true
      else shouldSaveContent_loop contentLength contentChangesLength rest
  end.

Definition shouldSaveContent (context : SaveContext) : bool :=
  match changes context with
  | None => true
  | Some changes =>
      shouldSaveContent_loop (String.length (content context)) 0 changes
  end.

(** The sum of the serialised lengths of all changes. *)
Definition changesLength (changes : list Change) : nat :=
  foldr (λ change acc, String.length (stringify change) + acc) 0 changes.

Abbreviation Task := (Async (Event Change ResourceVersion) World).

Definition trySaveContentChanges
    (resource : Resource Change ResourceVersion World)
    (context : SaveContext) : Task bool :=
  match changes context, saveContentChanges resource with
  | Some changes_, Some saveContentChanges_ =>
      if shouldSaveContent context then mret false
      else
        try_catch
          (invoke (CallSaveContentChanges changes_ (options context))
                  (saveContentChanges_ changes_ (options context));;
           mret true)
          (λ e,
             (if negb (ResourceError.NotFound.is_ e)
                 && negb (ResourceError.OutOfSync.is_ e)
              then emit (ConsoleError
                           ("Failed to apply incremental changes to '"
                              +:+ toString (uri resource) +:+ "':") e)
              else mret ());;
             mret false)
  | _, _ => mret false
  end.

Definition save (resource : Resource Change ResourceVersion World)
    (context : SaveContext)
    (token : option (CancellationToken World)) : Task unit :=
  match saveContents resource with
  | None => mret ()
  | Some saveContents_ =>
      saved ← trySaveContentChanges resource context;
      if saved : bool then mret ()
      else
        cancelled ← match token with
                    | Some token_ => read (isCancellationRequested token_)
                    | None => mret false
                    end;
        if cancelled : bool then mret ()
        else invoke (CallSaveContents (content context) (options context))
                    (saveContents_ (content context) (options context))
  end.

(** A context is fit for an incremental save on a resource when changes are
    present, the resource can take them and the heuristic agrees. *)
Definition eligible (resource : Resource Change ResourceVersion World)
    (context : SaveContext) (changes_ : list Change)
    (saveContentChanges_ : list Change → SaveOptions → Method World unit)
    : Prop :=
  changes context = Some changes_
  ∧ saveContentChanges resource = Some saveContentChanges_
  ∧ shouldSaveContent context = false.

End WithWorld.
Arguments SaveContext : clear implicits.
Arguments Build_SaveContext {_ _} _ _ _.
End Resource.

(** ** The resolver chain *)

(** [interface ResourceResolver]: [resolve] returns a resource, or raises (or
    rejects) when it cannot provide one. *)
Record ResourceResolver (Change ResourceVersion World : Type) := {
  resolve : URI → Method World (Resource.Resource Change ResourceVersion World)
}.
Arguments resolve {_ _ _} _ _.

Module DefaultResourceProvider.

(** The [position]-th resolver of the contributions was asked for [uri]. *)
Inductive Event :=
| CallResolve (position : nat) (uri : URI).

Section WithWorld.
Context {Change ResourceVersion World : Type}.

Abbreviation Resolver := (ResourceResolver Change ResourceVersion World).
Abbreviation Task := (Async Event World).

(** Modelled from the spec: the contribution provider
    (./contribution-provider) hands out the registered resolvers in
    registration order. *)
Record DefaultResourceProvider := {
  getContributions : list Resolver
}.

(** The [for ... of] loop of [get] from the resolver at [position] on, and
    the rejection that follows it. *)
Fixpoint get_from (position : nat) (resolvers : list Resolver) (uri : URI)
    : Task (Resource.Resource Change ResourceVersion World) :=
  match resolvers with
  | [] =>
      throw (Error ("A resource provider for '" +:+ toString uri
                      +:+ "' is not registered."))
  | resolver :: rest =>
      try_catch
        (invoke (CallResolve position uri) (resolve resolver uri))
        (λ _, get_from (S position) rest uri)
  end.

Definition get (this : DefaultResourceProvider) (uri : URI)
    : Task (Resource.Resource Change ResourceVersion World) :=
  get_from 0 (getContributions this) uri.

(** The world left when each of [resolvers], asked in turn from [w] on,
    rejects; [None] as soon as one of them provides a resource. *)
Fixpoint all_reject (resolvers : list Resolver) (uri : URI) (w : World)
    : option World :=
  match resolvers with
  | [] => Some w
  | resolver :: rest =>
      match resolve resolver uri w with
      | (Throw _, w1) => all_reject rest uri w1
      | (Return _, _) => None
      end
  end.

(** The trace in which the resolvers at [first], [first + 1], ... ([count]
    of them) were asked for [uri], once each and in this order. *)
Definition asked (uri : URI) (first count : nat) : list Event :=
  (λ position, CallResolve position uri) <$> seq first count.

End WithWorld.
Arguments DefaultResourceProvider : clear implicits.
End DefaultResourceProvider.

(** ** In-memory resources

    [MutableResource] objects live in a store and are denoted by their
    location there: two resources are the same instance exactly when their
    locations are equal.  The store also holds the [resources] map of the
    [InMemoryResources] instance, from serialised identifiers to the objects
    it owns. *)

Abbreviation loc := positive.

(** The disposal callbacks that this file creates: the arrow function
    [() => this.resources.delete(resourceUri)] of [InMemoryResources.add],
    with the [resourceUri] it captured. *)
Inductive DisposeCallback :=
| DeleteResource (resourceUri : string).

(** The fields of a [MutableResource]. *)
Record MutableResource := {
  uri : URI;
  contents : string;
  dispose : DisposeCallback
}.

Record Store := {
  objects : gmap loc MutableResource;
  resources : gmap string loc;
  (** what [onDidChangeContentsEmitter.fire] was called for, latest first *)
  fired : list loc
}.

(** A call through a reference that denotes no object. *)
Definition not_an_object {A} : Method Store A :=
  λ σ, (Throw (TypeError "not an object"), σ).

Definition run_callback (callback : DisposeCallback) (σ : Store) : Store :=
  match callback with
  | DeleteResource resourceUri =>
      {| objects := objects σ;
         resources := delete resourceUri (resources σ);
         fired := fired σ |}
  end.

Module MutableResource.

(** [new MutableResource(uri, contents, dispose)]: a new object at a
    location that denotes no object yet. *)
Definition new (uri : URI) (contents : string) (dispose : DisposeCallback)
    (σ : Store) : loc * Store :=
  let this := fresh (dom (objects σ)) in
  (this,
   {| objects := <[this := {| uri := uri; contents := contents;
                              dispose := dispose |}]> (objects σ);
      resources := resources σ;
      fired := fired σ |}).

Definition readContents (this : loc) : Method Store string :=
  λ σ,
    match objects σ !! this with
    | Some self => (Return (contents self), σ)
    | None => not_an_object σ
    end.

Definition fireDidChangeContents (this : loc) (σ : Store) : Store :=
  {| objects := objects σ;
     resources := resources σ;
     fired := this :: fired σ |}.

Definition saveContents (this : loc) (contents : string) : Method Store unit :=
  λ σ,
    match objects σ !! this with
    | Some self =>
        (Return (),
         fireDidChangeContents this
           {| objects := <[this := {| uri := uri self; contents := contents;
                                      dispose := dispose self |}]> (objects σ);
              resources := resources σ;
              fired := fired σ |})
    | None => not_an_object σ
    end.

(** [resource.dispose()]: call the callback the object was built with. *)
Definition dispose (this : loc) : Method Store unit :=
  λ σ,
    match objects σ !! this with
    | Some self => (Return (), run_callback (dispose self) σ)
    | None => not_an_object σ
    end.

End MutableResource.

Module InMemoryResources.

Definition add (uri : URI) (contents : string) : Method Store loc :=
  λ σ,
    let resourceUri := toString uri in
    match resources σ !! resourceUri with
    | Some _ =>
        (Throw (Error ("Cannot add already existing in-memory resource '"
                         +:+ resourceUri +:+ "'")), σ)
    | None =>
        let '(resource, σ1) :=
          MutableResource.new uri contents (DeleteResource resourceUri) σ in
        (Return resource,
         {| objects := objects σ1;
            resources := <[resourceUri := resource]> (resources σ1);
            fired := fired σ1 |})
    end.

Definition update (uri : URI) (contents : string) : Method Store loc :=
  λ σ,
    let resourceUri := toString uri in
    match resources σ !! resourceUri with
    | None =>
        (Throw (Error ("Cannot update non-existed in-memory resource '"
                         +:+ resourceUri +:+ "'")), σ)
    | Some resource =>
        (* the promise of [saveContents] is not awaited: its outcome is
           dropped, its synchronous effect stays *)
        let '(_, σ1) := MutableResource.saveContents resource contents σ in
        (Return resource, σ1)
    end.

Definition resolve (uri : URI) : Method Store loc :=
  λ σ,
    let uriString := toString uri in
    match resources σ !! uriString with
    | None =>
        (Throw (Error ("In memory '" +:+ uriString
                         +:+ "' resource does not exist.")), σ)
    | Some resource => (Return resource, σ)
    end.

End InMemoryResources.

(** ** Clients of the in-memory registry

    What a client can do with an [InMemoryResources] instance and with the
    resources it got from it, one call after another. *)

Inductive Call :=
| DoAdd (uri : URI) (contents : string)
| DoUpdate (uri : URI) (contents : string)
| DoResolve (uri : URI)
| DoReadContents (resource : loc)
| DoSaveContents (resource : loc) (contents : string)
| DoDispose (resource : loc).

(** The store a call leaves, whether it returned or raised. *)
Definition after (call : Call) (σ : Store) : Store :=
  match call with
  | DoAdd uri contents => (InMemoryResources.add uri contents σ).2
  | DoUpdate uri contents => (InMemoryResources.update uri contents σ).2
  | DoResolve uri => (InMemoryResources.resolve uri σ).2
  | DoReadContents resource => (MutableResource.readContents resource σ).2
  | DoSaveContents resource contents =>
      (MutableResource.saveContents resource contents σ).2
  | DoDispose resource => (MutableResource.dispose resource σ).2
  end.

Definition after_all (calls : list Call) (σ : Store) : Store :=
  foldl (λ σ call, after call σ) σ calls.

(** Whether [call] is an [add] under the serialised identifier [key]. *)
Definition adds (key : string) (call : Call) : bool :=
  match call with
  | DoAdd uri _ => bool_decide (toString uri = key)
  | _ => false
  end.

(** The content that [call], made in [σ], saves into the object at [this]:
    a [saveContents] on it, or an [update] of the identifier it is
    registered under. *)
Definition saved_by (this : loc) (call : Call) (σ : Store) : option string :=
  match call with
  | DoSaveContents resource contents =>
      if bool_decide (resource = this) then Some contents else None
  | DoUpdate uri contents =>
      if bool_decide (resources σ !! toString uri = Some this)
      then Some contents else None
  | _ => None
  end.

(** The content most recently saved into [this] by [calls] made from [σ] on,
    or [current] when none of them saves into it. *)
Fixpoint last_saved (this : loc) (current : string) (calls : list Call)
    (σ : Store) : string :=
  match calls with
  | [] => current
  | call :: rest =>
      last_saved this (default current (saved_by this call σ)) rest
        (after call σ)
  end.

(** ** Fixtures

    Concrete resources, used to run the definitions above.  Their world is the
    text of one file. *)

Module Fixtures.

(** A content change that replaces the whole text. *)
Record TextChange := { text : string }.

Definition quote : string := String (Ascii.ascii_of_nat 34) EmptyString.

(** [JSON.stringify] of [{ text }], for texts that need no escaping. *)
Definition stringify (change : TextChange) : string :=
  "{" +:+ quote +:+ "text" +:+ quote +:+ ":" +:+ quote +:+ text change
      +:+ quote +:+ "}".

Definition file_uri : URI := mkURI "file:///notes.txt".

(** A file that was not read yet: incremental saves are rejected with
    [NotFound], full saves rewrite the text. *)
Definition unread_file : Resource.Resource TextChange unit string :=
  {| Resource.uri := file_uri;
     Resource.readContents := λ w, (Return w, w);
     Resource.saveContents := Some (λ content _ _, (Return (), content));
     Resource.saveContentChanges :=
       Some (λ _ _ w,
               (Throw (ApplicationError ResourceError.NotFound.code
                         "not found" file_uri), w));
     Resource.dispose := λ w, (Return (), w) |}.

(** A resource that takes incremental changes but has no full save. *)
Definition patch_only : Resource.Resource TextChange unit string :=
  {| Resource.uri := file_uri;
     Resource.readContents := λ w, (Return w, w);
     Resource.saveContents := None;
     Resource.saveContentChanges :=
       Some (λ changes _ w,
               (Return (), foldl (λ _ change, text change) w changes));
     Resource.dispose := λ w, (Return (), w) |}.

Definition cancelled : CancellationToken string :=
  {| isCancellationRequested := λ _, true |}.

Definition pending : CancellationToken string :=
  {| isCancellationRequested := λ _, false |}.

Definition small_edit : Resource.SaveContext TextChange unit :=
  Resource.Build_SaveContext "hello, wide world" (Some [{| text := "a" |}])
    None.

(** A resolver that never has the resource, and one that always has. *)
Definition rejecting : ResourceResolver TextChange unit string :=
  {| resolve := λ uri w, (Throw (Error "not mine"), w) |}.

Definition providing : ResourceResolver TextChange unit string :=
  {| resolve := λ uri w, (Return unread_file, w) |}.

Definition empty_store : Store :=
  {| objects := ∅; resources := ∅; fired := [] |}.

(** The store after [add(file_uri, "draft")] on the empty registry; the new
    resource is the object at location 1. *)
Definition one_note : Store :=
  (InMemoryResources.add file_uri "draft" empty_store).2.

Definition note : MutableResource :=
  {| uri := file_uri; contents := "draft";
     dispose := DeleteResource "file:///notes.txt" |}.

End Fixtures.

(** ** The in-memory classes behind the interfaces *)

(** [new InMemoryResources()]: a registry without entries, before any
    resource was made. *)
Definition InMemoryResources_new : Store :=
  {| objects := ∅; resources := ∅; fired := [] |}.

Section InMemoryInterfaces.
Context {Change ResourceVersion : Type}.

(** [MutableResource implements Resource]: the object at [this], with the
    fields [self], seen through the interface.  Its [saveContents] takes no
    options, and it has no [saveContentChanges]. *)
Definition MutableResource_as_Resource (this : loc) (self : MutableResource)
    : Resource.Resource Change ResourceVersion Store :=
  {| Resource.uri := uri self;
     Resource.readContents := MutableResource.readContents this;
     Resource.saveContents :=
       Some (λ contents _, MutableResource.saveContents this contents);
     Resource.saveContentChanges := None;
     Resource.dispose := MutableResource.dispose this |}.

(** [InMemoryResources implements ResourceResolver]: its [resolve], handing
    out the registered object as a [Resource]. *)
Definition InMemoryResources_as_ResourceResolver
    : ResourceResolver Change ResourceVersion Store :=
  {| resolve := λ uri σ,
       match InMemoryResources.resolve uri σ with
       | (Return resource, σ1) =>
           match objects σ1 !! resource with
           | Some self => (Return (MutableResource_as_Resource resource self), σ1)
           | None => not_an_object σ1
           end
       | (Throw e, σ1) => (Throw e, σ1)
       end |}.

End InMemoryInterfaces.

(** ** Bookkeeping of the registry *)

(** Every entry of the registry leads to a live object that carries the
    identifier it is registered under and whose disposal callback removes
    that entry. *)
Definition registry_consistent (σ : Store) : Prop :=
  ∀ key resource,
    resources σ !! key = Some resource →
    ∃ self,
      objects σ !! resource = Some self
      ∧ toString (uri self) = key
      ∧ dispose self = DeleteResource key.

(** Whether [call], made in [σ], is aimed at the registry entry of [key]: an
    [add] under [key], or the [dispose] of an object whose callback removes
    [key]. *)
Definition aims_at (key : string) (call : Call) (σ : Store) : bool :=
  match call with
  | DoAdd uri _ => bool_decide (toString uri = key)
  | DoDispose resource =>
      match objects σ !! resource with
      | Some self =>
          match dispose self with
          | DeleteResource resourceUri => bool_decide (resourceUri = key)
          end
      | None => false
      end
  | _ => false
  end.

(** How often the change notification of [this] was fired so far. *)
Definition notified (this : loc) (σ : Store) : nat :=
  length (filter (λ resource, resource = this) (fired σ)).

(** How many of [calls], made one after another from [σ] on, save into
    [this]. *)
Fixpoint saves (this : loc) (calls : list Call) (σ : Store) : nat :=
  match calls with
  | [] => 0
  | call :: rest =>
      match saved_by this call σ with
      | Some _ => 1
      | None => 0
      end + saves this rest (after call σ)
  end.

(** ** More fixtures *)

Module Examples.

(** A file that takes incremental changes (each replaces the text) as well
    as full saves. *)
Definition patchable_file
    : Resource.Resource Fixtures.TextChange unit string :=
  {| Resource.uri := Fixtures.file_uri;
     Resource.readContents := λ w, (Return w, w);
     Resource.saveContents := Some (λ content _ _, (Return (), content));
     Resource.saveContentChanges :=
       Some (λ changes _ w,
               (Return (), foldl (λ _ change, Fixtures.text change) w changes));
     Resource.dispose := λ w, (Return (), w) |}.

(** A file whose incremental save breaks for a reason of its own. *)
Definition broken_patch_file
    : Resource.Resource Fixtures.TextChange unit string :=
  {| Resource.uri := Fixtures.file_uri;
     Resource.readContents := λ w, (Return w, w);
     Resource.saveContents := Some (λ content _ _, (Return (), content));
     Resource.saveContentChanges :=
       Some (λ _ _ w, (Throw (Error "patch failed"), w));
     Resource.dispose := λ w, (Return (), w) |}.

(** A file that changed behind our back: every full save is rejected with
    [OutOfSync]. *)
Definition stale_file : Resource.Resource Fixtures.TextChange unit string :=
  {| Resource.uri := Fixtures.file_uri;
     Resource.readContents := λ w, (Return w, w);
     Resource.saveContents :=
       Some (λ _ _ w,
               (Throw (ApplicationError ResourceError.OutOfSync.code
                         "out of sync" Fixtures.file_uri), w));
     Resource.saveContentChanges := None;
     Resource.dispose := λ w, (Return (), w) |}.

(** A file whose incremental save is not atomic: it writes part of the
    changes and only then rejects with [NotFound]. *)
Definition half_patched_file
    : Resource.Resource Fixtures.TextChange unit string :=
  {| Resource.uri := Fixtures.file_uri;
     Resource.readContents := λ w, (Return w, w);
     Resource.saveContents := Some (λ content _ _, (Return (), content));
     Resource.saveContentChanges :=
       Some (λ _ _ _,
               (Throw (ApplicationError ResourceError.NotFound.code
                         "not found" Fixtures.file_uri),
                "partially patched"));
     Resource.dispose := λ w, (Return (), w) |}.

(** A save context without changes. *)
Definition rewrite_all : Resource.SaveContext Fixtures.TextChange unit :=
  Resource.Build_SaveContext "hello, wide world" None None.

(** A resolver over the in-memory store that never has the resource. *)
Definition elsewhere : ResourceResolver Fixtures.TextChange unit Store :=
  {| resolve := λ uri σ, (Throw (Error "not mine"), σ) |}.

(** The registry as a resolver for the changes of the fixtures. *)
Definition in_memory : ResourceResolver Fixtures.TextChange unit Store :=
  InMemoryResources_as_ResourceResolver.

End Examples.

(** * Properties *)

(** ** The change-size heuristic *)

Section ShouldSaveContent.
Context {Change ResourceVersion : Type} (stringify : Change → string).

Implicit Types (context : Resource.SaveContext Change ResourceVersion).

(** The early exit of the loop does not change its answer: the running
    total only grows. *)
Lemma shouldSaveContent_loop_total contentLength total changes :
  Resource.shouldSaveContent_loop stringify contentLength total changes
  = Nat.ltb contentLength (total + Resource.changesLength stringify changes).
Proof.
  revert total. induction changes as [|change rest IH]; intros total; simpl.
  - by rewrite Nat.add_0_r.
  - destruct (Nat.ltb_spec contentLength
                (total + String.length (stringify change))) as [Hlt|Hge].
    + symmetry. apply Nat.ltb_lt. lia.
    + rewrite IH. f_equal. lia.
Qed.
End ShouldSaveContent.

(** C1, as stated, fails where the two lengths are equal: a single change
    whose serialisation is as long as the content is still saved
    incrementally. *)
Lemma shouldSaveContent_equal_length_counterexample :
  ¬ (∀ (context : Resource.SaveContext Fixtures.TextChange unit) changes,
       Resource.changes context = Some changes →
       (Resource.changesLength Fixtures.stringify changes
          < String.length (Resource.content context) →
        Resource.shouldSaveContent Fixtures.stringify context = false)
       ∧ (String.length (Resource.content context)
            ≤ Resource.changesLength Fixtures.stringify changes →
          Resource.shouldSaveContent Fixtures.stringify context = true)).
Proof.
  intros claim.
  destruct (claim (Resource.Build_SaveContext "hello world!"
                     (Some [{| Fixtures.text := "a" |}]) None)
                  [{| Fixtures.text := "a" |}] eq_refl) as [_ Hge].
  vm_compute in Hge. specialize (Hge (le_n _)). discriminate.
Qed.

Section ShouldSaveContentTheorems.
Context {Change ResourceVersion : Type} (stringify : Change → string).

(** C1 (amended): with changes present, [shouldSaveContent] is true exactly
    when the sum of the serialised lengths of all changes is strictly
    greater than [content.length]; it is false when the sum is smaller or
    equal.  A running total that exceeds the content length partway gives
    the same answer as the final comparison. *)
Theorem shouldSaveContent_strictly_greater
    (content : string) (changes : list Change)
    (options : option (ResourceSaveOptions ResourceVersion)) :
  Resource.shouldSaveContent stringify
    (Resource.Build_SaveContext content (Some changes) options)
  = bool_decide (String.length content
                   < Resource.changesLength stringify changes).
Proof.
  unfold Resource.shouldSaveContent; simpl.
  rewrite shouldSaveContent_loop_total; simpl.
  destruct (Nat.ltb_spec (String.length content)
              (Resource.changesLength stringify changes)).
  - by rewrite bool_decide_eq_true_2.
  - rewrite bool_decide_eq_false_2; [done | lia].
Qed.

(** C9: an empty change list is always judged fit for an incremental save,
    whatever the content (also the empty one), unlike absent changes. *)
Theorem shouldSaveContent_empty_changes
    (content : string)
    (options : option (ResourceSaveOptions ResourceVersion)) :
  Resource.shouldSaveContent stringify
    (Resource.Build_SaveContext content (Some []) options) = false
  ∧ Resource.shouldSaveContent stringify
      (Resource.Build_SaveContext content None options) = true.
Proof.
  split; [|done].
  unfold Resource.shouldSaveContent; simpl. apply Nat.ltb_ge. lia.
Qed.
End ShouldSaveContentTheorems.

(** ** The save orchestrator *)

(** Closes a goal saying that a given finite trace holds no call of the full
    save. *)
Ltac no_full_save :=
  let Hin := fresh "Hin" in
  intros ? ? Hin; simpl in Hin;
  repeat (apply elem_of_cons in Hin as [Hin|Hin]; [discriminate Hin|]);
  by apply elem_of_nil in Hin.

Section Save.
Context {Change ResourceVersion World : Type} (stringify : Change → string).

Implicit Types (resource : Resource.Resource Change ResourceVersion World)
  (context : Resource.SaveContext Change ResourceVersion)
  (token : option (CancellationToken World)) (w : World).

(** When the context is not fit, nothing is attempted. *)
Lemma trySaveContentChanges_not_attempted resource context w :
  (¬ ∃ changes saveContentChanges_,
       Resource.eligible stringify resource context changes saveContentChanges_) →
  Resource.trySaveContentChanges stringify resource context w
  = (Return false, w, []).
Proof.
  intros Hno. unfold Resource.trySaveContentChanges.
  destruct (Resource.changes context) as [changes|] eqn:Hch; [|done].
  destruct (Resource.saveContentChanges resource) as [f|] eqn:Hf; [|done].
  destruct (Resource.shouldSaveContent stringify context) eqn:Hs; [done|].
  exfalso. apply Hno. exists changes, f. by repeat split.
Qed.

(** When it is fit, the incremental save is called once; a normal return
    ends the attempt with [true]. *)
Lemma trySaveContentChanges_success resource context changes f w w1 :
  Resource.eligible stringify resource context changes f →
  f changes (Resource.options context) w = (Return (), w1) →
  Resource.trySaveContentChanges stringify resource context w
  = (Return true, w1,
     [Resource.CallSaveContentChanges changes (Resource.options context)]).
Proof.
  intros (Hch & Hf & Hs) Hrun. unfold Resource.trySaveContentChanges.
  rewrite Hch, Hf, Hs.
  unfold try_catch, mbind, Async_bind, invoke, mret, Async_ret.
  by rewrite Hrun.
Qed.

(** A raised error ends the attempt with [false], in the world the failed
    call left; only errors other than [NotFound] and [OutOfSync] are written
    to the console. *)
Lemma trySaveContentChanges_failure resource context changes f w w1 e :
  Resource.eligible stringify resource context changes f →
  f changes (Resource.options context) w = (Throw e, w1) →
  Resource.trySaveContentChanges stringify resource context w
  = (Return false, w1,
     Resource.CallSaveContentChanges changes (Resource.options context)
     :: (if negb (ResourceError.NotFound.is_ e)
            && negb (ResourceError.OutOfSync.is_ e)
         then [Resource.ConsoleError
                 ("Failed to apply incremental changes to '"
                    +:+ toString (Resource.uri resource) +:+ "':") e]
         else [])).
Proof.
  intros (Hch & Hf & Hs) Hrun. unfold Resource.trySaveContentChanges.
  rewrite Hch, Hf, Hs.
  unfold try_catch, mbind, Async_bind, invoke, emit, mret, Async_ret.
  rewrite Hrun.
  by destruct (negb (ResourceError.NotFound.is_ e)
               && negb (ResourceError.OutOfSync.is_ e)).
Qed.

(** The attempt itself never raises, and it calls nothing but the
    incremental save. *)
Lemma trySaveContentChanges_returns resource context w :
  ∃ saved w1 t1,
    Resource.trySaveContentChanges stringify resource context w
    = (Return saved, w1, t1)
    ∧ (∀ content options, Resource.CallSaveContents content options ∉ t1)
    ∧ ((∀ f changes options w0 e w0',
          Resource.saveContentChanges resource = Some f →
          f changes options w0 = (Throw e, w0') → w0' = w0) →
       saved = false → w1 = w).
Proof.
  unfold Resource.trySaveContentChanges.
  destruct (Resource.changes context) as [changes|] eqn:Hch;
    [|by exists false, w, []; split_and!; [|no_full_save|]].
  destruct (Resource.saveContentChanges resource) as [f|] eqn:Hf;
    [|by exists false, w, []; split_and!; [|no_full_save|]].
  destruct (Resource.shouldSaveContent stringify context) eqn:Hs;
    [by exists false, w, []; split_and!; [|no_full_save|]|].
  unfold try_catch, mbind, Async_bind, invoke, emit, mret, Async_ret.
  destruct (f changes (Resource.options context) w) as [[[]|e] w1] eqn:Hrun.
  - eexists true, w1, _. split_and!; [done| |done].
    no_full_save.
  - destruct (negb (ResourceError.NotFound.is_ e)
              && negb (ResourceError.OutOfSync.is_ e));
      eexists false, w1, _; (split_and!; [done| |]).
    + no_full_save.
    + intros Hatomic _. eauto.
    + no_full_save.
    + intros Hatomic _. eauto.
Qed.
End Save.

(** C2, as stated, fails for a cancelled token: the incremental save of the
    unread file is rejected with [NotFound], and then no full save is
    attempted at all, while the full save would have rewritten the text. *)
Lemma save_fallback_cancelled_counterexample :
  ¬ (∀ (resource : Resource.Resource Fixtures.TextChange unit string)
       (context : Resource.SaveContext Fixtures.TextChange unit)
       (token : option (CancellationToken string)) (w w1 : string)
       changes saveContentChanges_ saveContents_ e,
       Resource.saveContents resource = Some saveContents_ →
       Resource.eligible Fixtures.stringify resource context changes
         saveContentChanges_ →
       saveContentChanges_ changes (Resource.options context) w
       = (Throw e, w1) →
       ResourceError.NotFound.is_ e || ResourceError.OutOfSync.is_ e →
       Resource.save Fixtures.stringify resource context token w
       = (let '(outcome, w2) :=
            saveContents_ (Resource.content context)
              (Resource.options context) w1 in
          (outcome, w2,
           [Resource.CallSaveContentChanges changes
              (Resource.options context);
            Resource.CallSaveContents (Resource.content context)
              (Resource.options context)]))).
Proof.
  intros claim.
  specialize (claim Fixtures.unread_file Fixtures.small_edit
                (Some Fixtures.cancelled) "old" "old"
                _ _ _ _ eq_refl (conj eq_refl (conj eq_refl eq_refl))
                eq_refl I).
  vm_compute in claim. discriminate claim.
Qed.

(** C4, as stated, fails when the failed incremental save has itself
    written: the file below is partially patched before its incremental save
    rejects, the token then reports cancellation, and [save] returns with the
    text changed; nothing in [save] undoes what the attempt did. *)
Lemma save_cancelled_mutated_counterexample :
  ¬ (∀ (resource : Resource.Resource Fixtures.TextChange unit string)
       (context : Resource.SaveContext Fixtures.TextChange unit)
       (cancellation : CancellationToken string) (w w1 : string) t1,
       is_Some (Resource.saveContents resource) →
       Resource.trySaveContentChanges Fixtures.stringify resource context w
       = (Return false, w1, t1) →
       isCancellationRequested cancellation w1 = true →
       ∃ t,
         Resource.save Fixtures.stringify resource context
           (Some cancellation) w
         = (Return (), w, t)).
Proof.
  intros claim.
  destruct (claim Examples.half_patched_file Fixtures.small_edit
              Fixtures.cancelled "old" "partially patched" _
              (ex_intro _ _ eq_refl) eq_refl eq_refl) as [t Hsave].
  vm_compute in Hsave. discriminate Hsave.
Qed.

Section SaveTheorems.
Context {Change ResourceVersion World : Type} (stringify : Change → string).

Implicit Types (resource : Resource.Resource Change ResourceVersion World)
  (context : Resource.SaveContext Change ResourceVersion)
  (token : option (CancellationToken World)) (w : World).

(** C2 (amended): for a resource with both [saveContents] and
    [saveContentChanges] and a context fit for an incremental save, if the
    incremental save raises [NotFound] or [OutOfSync] and the token is
    absent or does not report cancellation once that attempt has failed,
    then [save] makes exactly one further call, [saveContents] with
    [context.content] and [context.options], writes nothing to the console,
    and ends as that call ends: with its return or its error, in the world
    it leaves. *)
Theorem save_falls_back_to_full_save
    resource context token w w1 changes saveContentChanges_ saveContents_ e :
  Resource.saveContents resource = Some saveContents_ →
  Resource.eligible stringify resource context changes saveContentChanges_ →
  saveContentChanges_ changes (Resource.options context) w = (Throw e, w1) →
  ResourceError.NotFound.is_ e || ResourceError.OutOfSync.is_ e →
  match token with
  | Some token_ => isCancellationRequested token_ w1 = false
  | None => True
  end →
  Resource.save stringify resource context token w
  = (let '(outcome, w2) :=
       saveContents_ (Resource.content context)
         (Resource.options context) w1 in
     (outcome, w2,
      [Resource.CallSaveContentChanges changes (Resource.options context);
       Resource.CallSaveContents (Resource.content context)
         (Resource.options context)])).
Proof.
  intros Hfull Hfit Hrun Hkind Htoken. unfold Resource.save.
  rewrite Hfull. unfold mbind, Async_bind.
  rewrite (trySaveContentChanges_failure stringify _ _ _ _ _ _ _ Hfit Hrun).
  assert (negb (ResourceError.NotFound.is_ e)
          && negb (ResourceError.OutOfSync.is_ e) = false) as ->.
  { destruct (ResourceError.NotFound.is_ e),
             (ResourceError.OutOfSync.is_ e); done. }
  unfold invoke, read, mret, Async_ret.
  destruct token as [token_|]; [rewrite Htoken|];
    by destruct (saveContents_ _ _ w1).
Qed.

(** C3: on a resource without [saveContents], [save] returns normally
    without calling anything and without changing the world, whatever the
    context and the token; that the resource has [saveContentChanges] and
    that changes are present makes no difference. *)
Theorem save_without_saveContents_is_noop resource context token w :
  Resource.saveContents resource = None →
  Resource.save stringify resource context token w = (Return (), w, []).
Proof. intros Hnone. unfold Resource.save. by rewrite Hnone. Qed.

(** C4 (amended): on a resource with [saveContents], if the token reports
    cancellation in the world [w1] reached once the incremental attempt (if
    any) has ended without success, then [save] raises no error, never calls
    [saveContents], and returns in that same world [w1]: it writes nothing
    beyond what the failed attempt wrote.  The world is the initial one when
    no incremental save was attempted, and when a failing incremental save
    leaves the world as it found it. *)
Theorem save_cancelled_before_full_save
    resource context
    (cancellation : CancellationToken World) w w1 t1 :
  is_Some (Resource.saveContents resource) →
  Resource.trySaveContentChanges stringify resource context w
  = (Return false, w1, t1) →
  isCancellationRequested cancellation w1 = true →
  Resource.save stringify resource context (Some cancellation) w
  = (Return (), w1, t1)
  ∧ (∀ content options, Resource.CallSaveContents content options ∉ t1)
  ∧ ((¬ ∃ changes f, Resource.eligible stringify resource context changes f) →
     w1 = w)
  ∧ ((∀ f changes options w0 e w0',
        Resource.saveContentChanges resource = Some f →
        f changes options w0 = (Throw e, w0') → w0' = w0) →
     w1 = w).
Proof.
  intros [saveContents_ Hfull] Htry Hcancelled.
  destruct (trySaveContentChanges_returns stringify resource context w)
    as (saved & w1' & t1' & Htry' & Hnofull & Hsame).
  rewrite Htry in Htry'. injection Htry' as <- <- <-.
  split_and!; [|done| |auto].
  - unfold Resource.save. rewrite Hfull. unfold mbind, Async_bind.
    rewrite Htry. unfold read, mret, Async_ret. rewrite Hcancelled.
    by rewrite app_nil_r.
  - intros Hno.
    rewrite (trySaveContentChanges_not_attempted stringify _ _ _ Hno) in Htry.
    by injection Htry as <- _.
Qed.
End SaveTheorems.

Lemma save_falls_back_to_full_save_witness :
  Resource.save Fixtures.stringify Fixtures.unread_file Fixtures.small_edit
    (Some Fixtures.pending) "old"
  = (Return (), "hello, wide world",
     [Resource.CallSaveContentChanges [{| Fixtures.text := "a" |}] None;
      Resource.CallSaveContents "hello, wide world" None]).
Proof.
  apply (save_falls_back_to_full_save Fixtures.stringify
           Fixtures.unread_file Fixtures.small_edit (Some Fixtures.pending)
           "old" "old" [{| Fixtures.text := "a" |}] _ _ _
           eq_refl (conj eq_refl (conj eq_refl eq_refl)) eq_refl I eq_refl).
Defined.

Lemma save_without_saveContents_is_noop_witness :
  Resource.save Fixtures.stringify Fixtures.patch_only Fixtures.small_edit
    (Some Fixtures.pending) "old"
  = (Return (), "old", []).
Proof.
  apply (save_without_saveContents_is_noop Fixtures.stringify
           Fixtures.patch_only Fixtures.small_edit (Some Fixtures.pending)
           "old" eq_refl).
Defined.

Lemma save_cancelled_before_full_save_witness :
  Resource.save Fixtures.stringify Examples.half_patched_file
    Fixtures.small_edit (Some Fixtures.cancelled) "old"
  = (Return (), "partially patched",
     [Resource.CallSaveContentChanges [{| Fixtures.text := "a" |}] None]).
Proof.
  apply (save_cancelled_before_full_save Fixtures.stringify
           Examples.half_patched_file Fixtures.small_edit Fixtures.cancelled
           "old" "partially patched" _ (ex_intro _ _ eq_refl) eq_refl eq_refl).
Defined.

(** ** The resolver chain *)

Section Get.
Context {Change ResourceVersion World : Type}.

Implicit Types
  (resolvers tried rest : list (ResourceResolver Change ResourceVersion World))
  (uri : URI) (w : World).

(** Resolvers that reject are asked once each, in order, their errors are
    dropped, and the loop goes on behind them in the world they left. *)
Lemma get_from_skips_rejecting tried rest uri first w w1 :
  DefaultResourceProvider.all_reject tried uri w = Some w1 →
  DefaultResourceProvider.get_from first (tried ++ rest) uri w
  = (let '(outcome, w2, t) :=
       DefaultResourceProvider.get_from (first + length tried) rest uri w1 in
     (outcome, w2,
      DefaultResourceProvider.asked uri first (length tried) ++ t))%list.
Proof.
  revert first w. induction tried as [|resolver tried IH]; intros first w; simpl.
  - intros [= ->]. rewrite Nat.add_0_r.
    by destruct (DefaultResourceProvider.get_from first rest uri w1)
      as [[? ?] ?].
  - unfold try_catch, invoke.
    destruct (resolve resolver uri w) as [[resource|e] w0]; [done|].
    intros Hrest. rewrite (IH _ _ Hrest).
    replace (S first + length tried) with (first + S (length tried)) by lia.
    by destruct (DefaultResourceProvider.get_from _ rest uri w1)
      as [[? ?] ?].
Qed.

(** C5: [get] returns the resource of the first resolver, in registration
    order, whose [resolve] succeeds, after asking the resolvers before it
    once each and dropping their errors, and asks no resolver behind it;
    when every resolver rejects (also when there is none) it rejects with a
    plain error that names the identifier and is neither [NotFound] nor
    [OutOfSync]. *)
Theorem get_first_success
    (this : DefaultResourceProvider.DefaultResourceProvider
              Change ResourceVersion World)
    tried uri w w1 :
  DefaultResourceProvider.all_reject tried uri w = Some w1 →
  (∀ resolver rest resource w2,
     DefaultResourceProvider.getContributions this
     = tried ++ resolver :: rest →
     resolve resolver uri w1 = (Return resource, w2) →
     DefaultResourceProvider.get this uri w
     = (Return resource, w2,
        DefaultResourceProvider.asked uri 0 (S (length tried))))
  ∧ (DefaultResourceProvider.getContributions this = tried →
     let e := Error ("A resource provider for '" +:+ toString uri
                       +:+ "' is not registered.") in
     DefaultResourceProvider.get this uri w
     = (Throw e, w1, DefaultResourceProvider.asked uri 0 (length tried))
     ∧ ResourceError.NotFound.is_ e = false
     ∧ ResourceError.OutOfSync.is_ e = false)
  ∧ (DefaultResourceProvider.getContributions this = [] →
     DefaultResourceProvider.get this uri w
     = (Throw (Error ("A resource provider for '" +:+ toString uri
                        +:+ "' is not registered.")), w, [])).
Proof.
  intros Hrejected. unfold DefaultResourceProvider.get. split_and!.
  - intros resolver rest resource w2 -> Hprovides.
    rewrite (get_from_skips_rejecting _ _ _ _ _ _ Hrejected). simpl.
    unfold try_catch, invoke. rewrite Hprovides.
    unfold DefaultResourceProvider.asked.
    by rewrite seq_S, fmap_app.
  - intros ->. simpl. split_and!; [|done..].
    rewrite <- (app_nil_r tried) at 1.
    rewrite (get_from_skips_rejecting _ _ _ _ _ _ Hrejected). simpl.
    by rewrite app_nil_r.
  - by intros ->.
Qed.
End Get.

Lemma get_first_success_witness :
  DefaultResourceProvider.get
    {| DefaultResourceProvider.getContributions :=
         [Fixtures.rejecting; Fixtures.providing; Fixtures.rejecting] |}
    Fixtures.file_uri "w"
  = (Return Fixtures.unread_file, "w",
     [DefaultResourceProvider.CallResolve 0 Fixtures.file_uri;
      DefaultResourceProvider.CallResolve 1 Fixtures.file_uri])
  ∧ DefaultResourceProvider.get
      {| DefaultResourceProvider.getContributions :=
           [Fixtures.rejecting; Fixtures.rejecting] |}
      Fixtures.file_uri "w"
    = (Throw (Error
         "A resource provider for 'file:///notes.txt' is not registered."),
       "w",
       [DefaultResourceProvider.CallResolve 0 Fixtures.file_uri;
        DefaultResourceProvider.CallResolve 1 Fixtures.file_uri]).
Proof.
  split.
  - apply (proj1 (get_first_success
             {| DefaultResourceProvider.getContributions :=
                  [Fixtures.rejecting; Fixtures.providing;
                   Fixtures.rejecting] |}
             [Fixtures.rejecting] Fixtures.file_uri "w" "w" eq_refl)
             Fixtures.providing [Fixtures.rejecting] Fixtures.unread_file "w"
             eq_refl eq_refl).
  - apply (proj1 (proj1 (proj2 (get_first_success
             {| DefaultResourceProvider.getContributions :=
                  [Fixtures.rejecting; Fixtures.rejecting] |}
             [Fixtures.rejecting; Fixtures.rejecting] Fixtures.file_uri
             "w" "w" eq_refl)) eq_refl)).
Defined.

(** ** In-memory resources *)

Section InMemory.
Implicit Types (σ : Store) (this resource : loc) (self : MutableResource)
  (call : Call) (calls : list Call) (key : string).

(** A new object never takes the place of a live one. *)
Lemma new_is_fresh σ :
  objects σ !! fresh (dom (objects σ)) = None.
Proof. apply not_elem_of_dom, is_fresh. Qed.

(** What a successful [add] has done. *)
Lemma add_fresh_inv σ uri contents :
  resources σ !! toString uri = None →
  InMemoryResources.add uri contents σ
  = (Return (fresh (dom (objects σ))),
     {| objects :=
          <[fresh (dom (objects σ)) :=
              {| uri := uri; contents := contents;
                 dispose := DeleteResource (toString uri) |}]> (objects σ);
        resources :=
          <[toString uri := fresh (dom (objects σ))]> (resources σ);
        fired := fired σ |}).
Proof. intros Hfree. unfold InMemoryResources.add. by rewrite Hfree. Qed.

Lemma add_returns_inv σ uri contents resource σ1 :
  InMemoryResources.add uri contents σ = (Return resource, σ1) →
  resources σ !! toString uri = None.
Proof.
  unfold InMemoryResources.add.
  by destruct (resources σ !! toString uri).
Qed.

(** No call removes an object, changes its identifier or its disposal
    callback; its contents change exactly as [saved_by] tells. *)
Lemma after_object call σ this self :
  objects σ !! this = Some self →
  objects (after call σ) !! this
  = Some {| uri := uri self;
            contents := default (contents self) (saved_by this call σ);
            dispose := dispose self |}.
Proof.
  intros Hlive. destruct self as [u c d]. simpl.
  assert (∀ resource contents,
    objects (MutableResource.saveContents resource contents σ).2 !! this
    = Some {| uri := u;
              contents := if bool_decide (resource = this)
                          then contents else c;
              dispose := d |}) as Hsave.
  { intros resource contents'. unfold MutableResource.saveContents.
    case_bool_decide as Heq.
    - subst resource. rewrite Hlive. simpl. by rewrite lookup_insert_eq.
    - destruct (objects σ !! resource) eqn:Hres; simpl; [|done].
      by rewrite lookup_insert_ne. }
  destruct call as [uri' contents'|uri' contents'|uri'|resource
                   |resource contents'|resource]; simpl.
  - unfold InMemoryResources.add.
    destruct (resources σ !! toString uri'); simpl; [done|].
    rewrite lookup_insert_ne; [done|].
    intros Heq. pose proof (new_is_fresh σ) as Hnew. congruence.
  - unfold InMemoryResources.update.
    destruct (resources σ !! toString uri') as [resource|] eqn:Hreg; simpl.
    + specialize (Hsave resource contents').
      destruct (MutableResource.saveContents resource contents' σ)
        as [outcome σ1]. simpl in *. rewrite Hsave.
      repeat case_bool_decide; simpl; congruence.
    + by rewrite Hlive.
  - unfold InMemoryResources.resolve.
    by destruct (resources σ !! toString uri').
  - unfold MutableResource.readContents.
    by destruct (objects σ !! resource).
  - rewrite Hsave. by case_bool_decide.
  - unfold MutableResource.dispose.
    destruct (objects σ !! resource) as [[? ? []]|]; by simpl.
Qed.

Lemma after_all_object calls σ this self :
  objects σ !! this = Some self →
  objects (after_all calls σ) !! this
  = Some {| uri := uri self;
            contents := last_saved this (contents self) calls σ;
            dispose := dispose self |}.
Proof.
  revert σ self. induction calls as [|call calls IH]; intros σ self Hlive.
  - by destruct self.
  - simpl. by rewrite (IH _ _ (after_object call σ this self Hlive)).
Qed.

(** Only an [add] under [key] brings an entry for [key] into the registry. *)
Lemma after_absent call σ key :
  resources σ !! key = None → adds key call = false →
  resources (after call σ) !! key = None.
Proof.
  intros Habsent Hnoadd.
  destruct call as [uri' contents'|uri' contents'|uri'|resource
                   |resource contents'|resource]; simpl.
  - unfold InMemoryResources.add.
    destruct (resources σ !! toString uri'); simpl; [done|].
    rewrite lookup_insert_ne; [done|].
    simpl in Hnoadd. by apply bool_decide_eq_false in Hnoadd.
  - unfold InMemoryResources.update, MutableResource.saveContents.
    destruct (resources σ !! toString uri') as [resource|]; [|done].
    by destruct (objects σ !! resource).
  - unfold InMemoryResources.resolve.
    by destruct (resources σ !! toString uri').
  - unfold MutableResource.readContents.
    by destruct (objects σ !! resource).
  - unfold MutableResource.saveContents.
    by destruct (objects σ !! resource).
  - unfold MutableResource.dispose.
    destruct (objects σ !! resource) as [[? ? [key']]|]; simpl; [|done].
    rewrite lookup_delete. by case_decide.
Qed.

Lemma after_all_absent calls σ key :
  resources σ !! key = None →
  Forall (λ call, adds key call = false) calls →
  resources (after_all calls σ) !! key = None.
Proof.
  revert σ. induction calls as [|call calls IH]; intros σ Habsent Hcalls.
  - done.
  - apply Forall_cons in Hcalls as [Hcall Hcalls]. simpl.
    apply IH; [|done]. by apply after_absent.
Qed.
End InMemory.

Section InMemoryTheorems.
Implicit Types (σ : Store) (this resource : loc) (self : MutableResource)
  (calls : list Call).

(** C6: [add] under an identifier that has no entry succeeds with a new
    resource instance; a following [resolve] of the identifier returns that
    very instance, and its [readContents] gives the content handed to
    [add]. *)
Theorem add_then_resolve σ uri contents :
  resources σ !! toString uri = None →
  ∃ resource σ1,
    InMemoryResources.add uri contents σ = (Return resource, σ1)
    ∧ objects σ !! resource = None
    ∧ InMemoryResources.resolve uri σ1 = (Return resource, σ1)
    ∧ MutableResource.readContents resource σ1 = (Return contents, σ1).
Proof.
  intros Hfree. eexists _, _. split; [by apply add_fresh_inv|].
  split_and!.
  - apply new_is_fresh.
  - unfold InMemoryResources.resolve. simpl. by rewrite lookup_insert_eq.
  - unfold MutableResource.readContents. simpl. by rewrite lookup_insert_eq.
Qed.

(** C7: [add] under an identifier that already has an entry raises the
    "already existing" error and leaves the store as it was, registry and
    objects alike: the identifier still resolves to the original instance,
    whose content is untouched. *)
Theorem add_existing_fails σ uri contents original :
  resources σ !! toString uri = Some original →
  InMemoryResources.add uri contents σ
  = (Throw (Error ("Cannot add already existing in-memory resource '"
                     +:+ toString uri +:+ "'")), σ)
  ∧ InMemoryResources.resolve uri σ = (Return original, σ).
Proof.
  intros Hpresent.
  unfold InMemoryResources.add, InMemoryResources.resolve.
  by rewrite Hpresent.
Qed.

(** C8: a resource returned by [add uri] keeps, through whatever calls
    follow, a [dispose] that removes the registry entry of [uri]; from then
    on [resolve uri] raises the "does not exist" error, and goes on doing so
    for as long as [uri] is not added again. *)
Theorem dispose_then_resolve σ uri contents resource σ1 calls :
  InMemoryResources.add uri contents σ = (Return resource, σ1) →
  ∃ σ3,
    MutableResource.dispose resource (after_all calls σ1) = (Return (), σ3)
    ∧ resources σ3 !! toString uri = None
    ∧ ∀ later,
        Forall (λ call, adds (toString uri) call = false) later →
        InMemoryResources.resolve uri (after_all later σ3)
        = (Throw (Error ("In memory '" +:+ toString uri
                           +:+ "' resource does not exist.")),
           after_all later σ3).
Proof.
  intros Hadd. pose proof (add_returns_inv _ _ _ _ _ Hadd) as Hfree.
  rewrite (add_fresh_inv _ _ contents Hfree) in Hadd.
  injection Hadd as <- <-.
  set (resource := fresh (dom (objects σ))).
  set (σ1 := {| objects := _ |}).
  assert (objects σ1 !! resource
          = Some {| uri := uri; contents := contents;
                    dispose := DeleteResource (toString uri) |}) as Hlive
    by apply lookup_insert_eq.
  apply (after_all_object calls) in Hlive. simpl in Hlive.
  unfold MutableResource.dispose. rewrite Hlive. simpl.
  eexists. split; [done|].
  assert (resources
            {| objects := objects (after_all calls σ1);
               resources := delete (toString uri)
                              (resources (after_all calls σ1));
               fired := fired (after_all calls σ1) |} !! toString uri
          = None) as Hgone by apply lookup_delete_eq.
  split; [done|]. intros later Hlater.
  unfold InMemoryResources.resolve.
  by rewrite (after_all_absent later _ _ Hgone Hlater).
Qed.

(** C10: [readContents] of a live [MutableResource] never raises: after any
    calls whatever, [dispose] among them, it returns the content most
    recently saved into the resource (the content it held before, if none
    was saved since) and leaves the store alone; disposing the resource
    changes nothing of what it reads. *)
Theorem readContents_never_fails σ this self calls :
  objects σ !! this = Some self →
  MutableResource.readContents this (after_all calls σ)
  = (Return (last_saved this (contents self) calls σ), after_all calls σ)
  ∧ (MutableResource.readContents this
       (MutableResource.dispose this (after_all calls σ)).2).1
    = Return (last_saved this (contents self) calls σ).
Proof.
  intros Hlive. apply (after_all_object calls) in Hlive.
  unfold MutableResource.readContents, MutableResource.dispose.
  rewrite Hlive. split; [done|]. simpl.
  destruct (dispose self). simpl. by rewrite Hlive.
Qed.
End InMemoryTheorems.

Lemma add_then_resolve_witness :
  ∃ resource σ1,
    InMemoryResources.add Fixtures.file_uri "draft" Fixtures.empty_store
    = (Return resource, σ1)
    ∧ objects Fixtures.empty_store !! resource = None
    ∧ InMemoryResources.resolve Fixtures.file_uri σ1 = (Return resource, σ1)
    ∧ MutableResource.readContents resource σ1 = (Return "draft", σ1).
Proof.
  apply (add_then_resolve Fixtures.empty_store Fixtures.file_uri "draft").
  vm_compute. reflexivity.
Defined.

Lemma add_existing_fails_witness :
  InMemoryResources.add Fixtures.file_uri "other" Fixtures.one_note
  = (Throw (Error
       "Cannot add already existing in-memory resource 'file:///notes.txt'"),
     Fixtures.one_note)
  ∧ InMemoryResources.resolve Fixtures.file_uri Fixtures.one_note
    = (Return 1%positive, Fixtures.one_note).
Proof.
  apply (add_existing_fails Fixtures.one_note Fixtures.file_uri "other"
           1%positive).
  vm_compute. reflexivity.
Defined.

Lemma dispose_then_resolve_witness :
  ∃ σ3,
    MutableResource.dispose 1%positive
      (after_all [DoUpdate Fixtures.file_uri "final"; DoDispose 1%positive;
                  DoAdd Fixtures.file_uri "again"] Fixtures.one_note)
    = (Return (), σ3)
    ∧ resources σ3 !! "file:///notes.txt" = None
    ∧ ∀ later,
        Forall (λ call, adds "file:///notes.txt" call = false) later →
        InMemoryResources.resolve Fixtures.file_uri (after_all later σ3)
        = (Throw (Error "In memory 'file:///notes.txt' resource does not exist."),
           after_all later σ3).
Proof.
  apply (dispose_then_resolve Fixtures.empty_store Fixtures.file_uri "draft"
           1%positive Fixtures.one_note).
  vm_compute. reflexivity.
Defined.

Lemma readContents_never_fails_witness :
  (MutableResource.readContents 1%positive
     (after_all [DoUpdate Fixtures.file_uri "final"; DoDispose 1%positive;
                 DoReadContents 1%positive] Fixtures.one_note)).1
  = Return "final".
Proof.
  assert (objects Fixtures.one_note !! 1%positive = Some Fixtures.note)
    as Hlive by (vm_compute; reflexivity).
  rewrite (proj1 (readContents_never_fails Fixtures.one_note 1%positive
                    Fixtures.note _ Hlive)).
  vm_compute. reflexivity.
Defined.

(** * Further properties *)

(** ** The change-size heuristic, continued *)

Section ShouldSaveContentMore.
Context {Change ResourceVersion : Type} (stringify : Change → string).

Lemma changesLength_app (changes more : list Change) :
  Resource.changesLength stringify (changes ++ more)
  = Resource.changesLength stringify changes
    + Resource.changesLength stringify more.
Proof.
  induction changes as [|change changes IH]; simpl; [done|].
  rewrite IH. lia.
Qed.

Lemma changesLength_permutation (changes changes' : list Change) :
  changes ≡ₚ changes' →
  Resource.changesLength stringify changes
  = Resource.changesLength stringify changes'.
Proof.
  induction 1 as [|change ? ? ? IH|? ? ?|? ? ? ? IH1 ? IH2]; simpl; lia.
Qed.

(** X1: the decision does not depend on the order of the changes, although
    the loop may stop at a different change. *)
Theorem shouldSaveContent_order_irrelevant
    (content : string) (changes changes' : list Change)
    (options : option (ResourceSaveOptions ResourceVersion)) :
  changes ≡ₚ changes' →
  Resource.shouldSaveContent stringify
    (Resource.Build_SaveContext content (Some changes) options)
  = Resource.shouldSaveContent stringify
      (Resource.Build_SaveContext content (Some changes') options).
Proof.
  intros Hperm. unfold Resource.shouldSaveContent; simpl.
  rewrite !shouldSaveContent_loop_total.
  by rewrite (changesLength_permutation _ _ Hperm).
Qed.

(** X2: once the changes are judged too large for a content, they stay so
    when further changes are appended and when the content is no longer. *)
Theorem shouldSaveContent_monotone
    (content content' : string) (changes more : list Change)
    (options options' : option (ResourceSaveOptions ResourceVersion)) :
  String.length content' ≤ String.length content →
  Resource.shouldSaveContent stringify
    (Resource.Build_SaveContext content (Some changes) options) = true →
  Resource.shouldSaveContent stringify
    (Resource.Build_SaveContext content' (Some (changes ++ more)) options')
  = true.
Proof.
  unfold Resource.shouldSaveContent; simpl.
  rewrite !shouldSaveContent_loop_total, changesLength_app.
  intros Hshorter Hfull%Nat.ltb_lt. apply Nat.ltb_lt. lia.
Qed.
End ShouldSaveContentMore.

Lemma shouldSaveContent_order_irrelevant_witness :
  Resource.shouldSaveContent Fixtures.stringify
    (Resource.Build_SaveContext "hello, wide world"
       (Some [{| Fixtures.text := "a" |}; {| Fixtures.text := "wide" |}]) None
     : Resource.SaveContext Fixtures.TextChange unit)
  = Resource.shouldSaveContent Fixtures.stringify
      (Resource.Build_SaveContext "hello, wide world"
         (Some [{| Fixtures.text := "wide" |}; {| Fixtures.text := "a" |}])
         None
       : Resource.SaveContext Fixtures.TextChange unit).
Proof.
  apply (shouldSaveContent_order_irrelevant Fixtures.stringify
           "hello, wide world"
           [{| Fixtures.text := "a" |}; {| Fixtures.text := "wide" |}]
           [{| Fixtures.text := "wide" |}; {| Fixtures.text := "a" |}]
           (None : option (ResourceSaveOptions unit))).
  apply perm_swap.
Defined.

Lemma shouldSaveContent_monotone_witness :
  Resource.shouldSaveContent Fixtures.stringify
    (Resource.Build_SaveContext "hello"
       (Some ([{| Fixtures.text := "a" |}] ++ [{| Fixtures.text := "b" |}]))
       None
     : Resource.SaveContext Fixtures.TextChange unit)
  = true.
Proof.
  apply (shouldSaveContent_monotone Fixtures.stringify "hello world" "hello"
           [{| Fixtures.text := "a" |}] [{| Fixtures.text := "b" |}]
           (None : option (ResourceSaveOptions unit)) None).
  - vm_compute. lia.
  - vm_compute. reflexivity.
Defined.

(** ** The save orchestrator, continued *)

Section SaveMore.
Context {Change ResourceVersion World : Type} (stringify : Change → string).

Implicit Types (resource : Resource.Resource Change ResourceVersion World)
  (context : Resource.SaveContext Change ResourceVersion)
  (token : option (CancellationToken World)) (w : World).

(** The three ways an attempt can go. *)
Lemma trySaveContentChanges_cases resource context w :
  ((¬ ∃ changes f, Resource.eligible stringify resource context changes f)
   ∧ Resource.trySaveContentChanges stringify resource context w
     = (Return false, w, []))
  ∨ ∃ changes f,
      Resource.eligible stringify resource context changes f
      ∧ ((∃ w1,
            f changes (Resource.options context) w = (Return (), w1)
            ∧ Resource.trySaveContentChanges stringify resource context w
              = (Return true, w1,
                 [Resource.CallSaveContentChanges changes
                    (Resource.options context)]))
         ∨ (∃ e w1,
              f changes (Resource.options context) w = (Throw e, w1)
              ∧ Resource.trySaveContentChanges stringify resource context w
                = (Return false, w1,
                   Resource.CallSaveContentChanges changes
                     (Resource.options context)
                   :: (if negb (ResourceError.NotFound.is_ e)
                          && negb (ResourceError.OutOfSync.is_ e)
                       then [Resource.ConsoleError
                               ("Failed to apply incremental changes to '"
                                  +:+ toString (Resource.uri resource)
                                  +:+ "':") e]
                       else [])))).
Proof.
  destruct (Resource.changes context) as [changes|] eqn:Hch; cycle 1.
  { left. assert (¬ ∃ changes f,
      Resource.eligible stringify resource context changes f) as Hno
      by (intros (? & ? & ? & _); congruence).
    split; [done|]. by apply trySaveContentChanges_not_attempted. }
  destruct (Resource.saveContentChanges resource) as [f|] eqn:Hf; cycle 1.
  { left. assert (¬ ∃ changes f,
      Resource.eligible stringify resource context changes f) as Hno
      by (intros (? & ? & _ & ? & _); congruence).
    split; [done|]. by apply trySaveContentChanges_not_attempted. }
  destruct (Resource.shouldSaveContent stringify context) eqn:Hs.
  { left. assert (¬ ∃ changes f,
      Resource.eligible stringify resource context changes f) as Hno
      by (intros (? & ? & _ & _ & ?); congruence).
    split; [done|]. by apply trySaveContentChanges_not_attempted. }
  right. exists changes, f.
  assert (Resource.eligible stringify resource context changes f) as Hfit
    by done.
  split; [done|].
  destruct (f changes (Resource.options context) w) as [[[]|e] w1] eqn:Hrun.
  - left. exists w1. split; [done|].
    by apply (trySaveContentChanges_success stringify _ _ _ f).
  - right. exists e, w1. split; [done|].
    by apply (trySaveContentChanges_failure stringify _ _ _ f).
Qed.

(** Eligibility fixes the changes and the method. *)
Lemma eligible_unique resource context changes f changes' f' :
  Resource.eligible stringify resource context changes f →
  Resource.eligible stringify resource context changes' f' →
  changes' = changes ∧ f' = f.
Proof. intros (? & ? & _) (? & ? & _). split; congruence. Qed.

(** X3: [trySaveContentChanges] never raises, and it answers [true] exactly
    when the context was fit for an incremental save and [saveContentChanges]
    returned normally; the world it leaves is then the one that call left. *)
Theorem trySaveContentChanges_true_iff resource context w :
  ∃ saved w1 t1,
    Resource.trySaveContentChanges stringify resource context w
    = (Return saved, w1, t1)
    ∧ (saved = true ↔
       ∃ changes f,
         Resource.eligible stringify resource context changes f
         ∧ f changes (Resource.options context) w = (Return (), w1)).
Proof.
  destruct (trySaveContentChanges_cases resource context w)
    as [[Hno Htry]|(changes & f & Hfit & [(w1 & Hrun & Htry)
                                         |(e & w1 & Hrun & Htry)])].
  - exists false, w, []. split; [done|]. split; [done|].
    intros (changes & f & Hfit & _). destruct Hno. eauto.
  - eexists true, w1, _. split; [done|]. split; [|done]. eauto.
  - eexists false, w1, _. split; [done|]. split; [done|].
    intros (changes' & f' & Hfit' & Hrun').
    destruct (eligible_unique _ _ _ _ _ _ Hfit Hfit') as [-> ->]. congruence.
Qed.

(** X4: when the context is fit and the incremental save returns normally,
    [save] is done with that one call: no full save follows, and the token is
    not even looked at, so that a cancelled token does not stop the
    incremental save. *)
Theorem save_incremental_success
    resource context token w w1 changes f :
  is_Some (Resource.saveContents resource) →
  Resource.eligible stringify resource context changes f →
  f changes (Resource.options context) w = (Return (), w1) →
  Resource.save stringify resource context token w
  = (Return (), w1,
     [Resource.CallSaveContentChanges changes (Resource.options context)]).
Proof.
  intros [saveContents_ Hfull] Hfit Hrun. unfold Resource.save.
  rewrite Hfull. unfold mbind, Async_bind.
  by rewrite (trySaveContentChanges_success stringify _ _ _ _ _ _ Hfit Hrun).
Qed.

(** X5: when the context is not fit for an incremental save (changes absent,
    no [saveContentChanges], or changes too large) and cancellation is not
    requested, [save] is one call of [saveContents] with [context.content] and
    [context.options], and ends as that call ends. *)
Theorem save_not_eligible_full_save
    resource context token w saveContents_ :
  Resource.saveContents resource = Some saveContents_ →
  (¬ ∃ changes f, Resource.eligible stringify resource context changes f) →
  match token with
  | Some cancellation => isCancellationRequested cancellation w = false
  | None => True
  end →
  Resource.save stringify resource context token w
  = (let '(outcome, w2) :=
       saveContents_ (Resource.content context) (Resource.options context) w in
     (outcome, w2,
      [Resource.CallSaveContents (Resource.content context)
         (Resource.options context)])).
Proof.
  intros Hfull Hno Htoken. unfold Resource.save.
  rewrite Hfull. unfold mbind, Async_bind.
  rewrite (trySaveContentChanges_not_attempted stringify _ _ _ Hno).
  unfold invoke, read, mret, Async_ret.
  destruct token as [cancellation|]; [rewrite Htoken|];
    by destruct (saveContents_ _ _ w).
Qed.

(** X6: when the incremental save raises an error that is neither [NotFound]
    nor [OutOfSync], [save] writes it to the console with the resource's
    identifier and then, unless cancellation is requested, falls back to the
    full save like for the two expected kinds; the error of the incremental
    save itself is not raised to the caller. *)
Theorem save_logs_unexpected_error
    resource context token w w1 changes f saveContents_ e :
  Resource.saveContents resource = Some saveContents_ →
  Resource.eligible stringify resource context changes f →
  f changes (Resource.options context) w = (Throw e, w1) →
  ResourceError.NotFound.is_ e = false →
  ResourceError.OutOfSync.is_ e = false →
  match token with
  | Some cancellation => isCancellationRequested cancellation w1 = false
  | None => True
  end →
  Resource.save stringify resource context token w
  = (let '(outcome, w2) :=
       saveContents_ (Resource.content context) (Resource.options context)
         w1 in
     (outcome, w2,
      [Resource.CallSaveContentChanges changes (Resource.options context);
       Resource.ConsoleError
         ("Failed to apply incremental changes to '"
            +:+ toString (Resource.uri resource) +:+ "':") e;
       Resource.CallSaveContents (Resource.content context)
         (Resource.options context)])).
Proof.
  intros Hfull Hfit Hrun Hnf Hoos Htoken. unfold Resource.save.
  rewrite Hfull. unfold mbind, Async_bind.
  rewrite (trySaveContentChanges_failure stringify _ _ _ _ _ _ _ Hfit Hrun).
  rewrite Hnf, Hoos. simpl.
  unfold invoke, read, mret, Async_ret.
  destruct token as [cancellation|]; [rewrite Htoken|];
    by destruct (saveContents_ _ _ w1).
Qed.
End SaveMore.

Section SaveShape.
Context {Change ResourceVersion World : Type} (stringify : Change → string).

Implicit Types (resource : Resource.Resource Change ResourceVersion World)
  (context : Resource.SaveContext Change ResourceVersion)
  (token : option (CancellationToken World)) (w : World).

(** What [save] does behind an attempt that did not save. *)
Lemma save_after_failed_attempt resource context token w w1 t1 saveContents_ :
  Resource.saveContents resource = Some saveContents_ →
  Resource.trySaveContentChanges stringify resource context w
  = (Return false, w1, t1) →
  Resource.save stringify resource context token w
  = (if match token with
        | Some cancellation => isCancellationRequested cancellation w1
        | None => false
        end
     then (Return (), w1, t1)
     else let '(outcome, w2) :=
            saveContents_ (Resource.content context)
              (Resource.options context) w1 in
          (outcome, w2,
           t1 ++ [Resource.CallSaveContents (Resource.content context)
                    (Resource.options context)])).
Proof.
  intros Hfull Htry. unfold Resource.save.
  rewrite Hfull. unfold mbind, Async_bind. rewrite Htry.
  unfold invoke, read, mret, Async_ret.
  destruct token as [cancellation|]; simpl.
  - destruct (isCancellationRequested cancellation w1);
      [by rewrite app_nil_r|].
    by destruct (saveContents_ _ _ w1).
  - by destruct (saveContents_ _ _ w1).
Qed.

(** X7: [save] raises only what its full save raised: if [save] ends with an
    error, then [saveContents] was its last call, made with [context.content]
    and [context.options], and that call raised this very error.  Nothing the
    incremental save raises reaches the caller. *)
Theorem save_raises_only_from_saveContents
    resource context token w e w2 t :
  Resource.save stringify resource context token w = (Throw e, w2, t) →
  ∃ saveContents_ w1 t1,
    Resource.saveContents resource = Some saveContents_
    ∧ saveContents_ (Resource.content context) (Resource.options context) w1
      = (Throw e, w2)
    ∧ t = t1 ++ [Resource.CallSaveContents (Resource.content context)
                   (Resource.options context)].
Proof.
  intros Hsave.
  destruct (Resource.saveContents resource) as [saveContents_|] eqn:Hfull;
    [|unfold Resource.save in Hsave; by rewrite Hfull in Hsave].
  destruct (trySaveContentChanges_cases stringify resource context w)
    as [[Hno Htry]|(changes & f & Hfit & [(w1 & Hrun & Htry)
                                         |(e' & w1 & Hrun & Htry)])].
  - rewrite (save_after_failed_attempt _ _ token _ _ _ _ Hfull Htry) in Hsave.
    destruct (match token with Some _ => _ | None => _ end); [done|].
    destruct (saveContents_ _ _ w) as [outcome w2'] eqn:Hcall.
    simplify_eq. by exists saveContents_, w, [].
  - unfold Resource.save, mbind, Async_bind in Hsave.
    by rewrite Hfull, Htry in Hsave.
  - rewrite (save_after_failed_attempt _ _ token _ _ _ _ Hfull Htry) in Hsave.
    destruct (match token with Some _ => _ | None => _ end); [done|].
    destruct (saveContents_ _ _ w1) as [outcome w2'] eqn:Hcall.
    simplify_eq. by eexists saveContents_, w1, _.
Qed.
End SaveShape.

Section SaveTrace.
Context {Change ResourceVersion World : Type} (stringify : Change → string).

Implicit Types (resource : Resource.Resource Change ResourceVersion World)
  (context : Resource.SaveContext Change ResourceVersion)
  (token : option (CancellationToken World)) (w : World).

(** X8: whatever the resource, the context and the token, [save] calls each
    of the two methods at most once: first, if at all, [saveContentChanges]
    with [context.changes] and [context.options], possibly followed by one
    line on the console; last, if at all, [saveContents] with
    [context.content] and [context.options]. *)
Theorem save_calls_each_method_at_most_once resource context token w :
  ∃ attempt full,
    (Resource.save stringify resource context token w).2 = attempt ++ full
    ∧ (attempt = []
       ∨ ∃ changes,
           Resource.changes context = Some changes
           ∧ (attempt = [Resource.CallSaveContentChanges changes
                           (Resource.options context)]
              ∨ ∃ message e,
                  attempt = [Resource.CallSaveContentChanges changes
                               (Resource.options context);
                             Resource.ConsoleError message e]))
    ∧ (full = []
       ∨ full = [Resource.CallSaveContents (Resource.content context)
                   (Resource.options context)]).
Proof.
  destruct (Resource.saveContents resource) as [saveContents_|] eqn:Hfull;
    cycle 1.
  { exists [], []. unfold Resource.save. rewrite Hfull. auto. }
  assert (∀ w1 t1,
    Resource.trySaveContentChanges stringify resource context w
    = (Return false, w1, t1) →
    ∃ full,
      (Resource.save stringify resource context token w).2 = t1 ++ full
      ∧ (full = []
         ∨ full = [Resource.CallSaveContents (Resource.content context)
                     (Resource.options context)])) as Hbehind.
  { intros w1 t1 Htry.
    rewrite (save_after_failed_attempt stringify _ _ token _ _ _ _ Hfull Htry).
    destruct (match token with Some _ => _ | None => _ end).
    - exists []. rewrite app_nil_r. auto.
    - destruct (saveContents_ _ _ w1). eauto. }
  destruct (trySaveContentChanges_cases stringify resource context w)
    as [[Hno Htry]|(changes & f & Hfit & [(w1 & Hrun & Htry)
                                         |(e & w1 & Hrun & Htry)])].
  - destruct (Hbehind _ _ Htry) as (full & -> & Hshape).
    exists [], full. auto.
  - eexists _, []. split_and!; [|right; exists changes; split;
                                   [apply Hfit|left; reflexivity]|auto].
    unfold Resource.save, mbind, Async_bind. rewrite Hfull, Htry.
    by rewrite app_nil_r.
  - destruct (Hbehind _ _ Htry) as (full & -> & Hshape).
    eexists _, full. split_and!; [done| |done].
    right. exists changes. split; [apply Hfit|].
    destruct (negb _ && negb _); eauto.
Qed.
End SaveTrace.

Lemma save_incremental_success_witness :
  Resource.save Fixtures.stringify Examples.patchable_file Fixtures.small_edit
    (Some Fixtures.cancelled) "old"
  = (Return (), "a",
     [Resource.CallSaveContentChanges [{| Fixtures.text := "a" |}] None]).
Proof.
  apply (save_incremental_success Fixtures.stringify Examples.patchable_file
           Fixtures.small_edit (Some Fixtures.cancelled) "old" "a"
           [{| Fixtures.text := "a" |}] _
           (ex_intro _ _ eq_refl) (conj eq_refl (conj eq_refl eq_refl))
           eq_refl).
Defined.

Lemma save_not_eligible_full_save_witness :
  Resource.save Fixtures.stringify Fixtures.unread_file Examples.rewrite_all
    (Some Fixtures.pending) "old"
  = (Return (), "hello, wide world",
     [Resource.CallSaveContents "hello, wide world" None]).
Proof.
  apply (save_not_eligible_full_save Fixtures.stringify Fixtures.unread_file
           Examples.rewrite_all (Some Fixtures.pending) "old" _ eq_refl).
  - intros (changes & f & Hchanges & _). vm_compute in Hchanges.
    discriminate Hchanges.
  - reflexivity.
Defined.

Lemma save_logs_unexpected_error_witness :
  Resource.save Fixtures.stringify Examples.broken_patch_file
    Fixtures.small_edit None "old"
  = (Return (), "hello, wide world",
     [Resource.CallSaveContentChanges [{| Fixtures.text := "a" |}] None;
      Resource.ConsoleError
        "Failed to apply incremental changes to 'file:///notes.txt':"
        (Error "patch failed");
      Resource.CallSaveContents "hello, wide world" None]).
Proof.
  apply (save_logs_unexpected_error Fixtures.stringify
           Examples.broken_patch_file Fixtures.small_edit None "old" "old"
           [{| Fixtures.text := "a" |}] _ _ (Error "patch failed")
           eq_refl (conj eq_refl (conj eq_refl eq_refl)) eq_refl
           eq_refl eq_refl I).
Defined.

Lemma save_raises_only_from_saveContents_witness :
  ∃ saveContents_ w1 t1,
    Resource.saveContents Examples.stale_file = Some saveContents_
    ∧ saveContents_ "hello, wide world" None w1
      = (Throw (ApplicationError ResourceError.OutOfSync.code "out of sync"
                  Fixtures.file_uri), "old")
    ∧ ([Resource.CallSaveContents "hello, wide world" None]
       : list (Resource.Event Fixtures.TextChange unit))
      = t1 ++ [Resource.CallSaveContents "hello, wide world" None].
Proof.
  apply (save_raises_only_from_saveContents Fixtures.stringify
           Examples.stale_file Examples.rewrite_all None "old"
           (ApplicationError ResourceError.OutOfSync.code "out of sync"
              Fixtures.file_uri) "old"
           [Resource.CallSaveContents "hello, wide world" None]).
  vm_compute. reflexivity.
Defined.

(** ** In-memory resources, continued *)

Section InMemoryMore.
Implicit Types (σ : Store) (this resource : loc) (self : MutableResource)
  (call : Call) (calls : list Call) (key : string).

(** Where an entry of the registry comes from: it was there before the call,
    or the call is the [add] that made it. *)
Lemma after_entry_origin call σ key resource :
  resources (after call σ) !! key = Some resource →
  resources σ !! key = Some resource
  ∨ ∃ uri contents,
      call = DoAdd uri contents ∧ toString uri = key
      ∧ resources σ !! key = None
      ∧ resource = fresh (dom (objects σ)).
Proof.
  destruct call as [uri' contents'|uri' contents'|uri'|resource'
                   |resource' contents'|resource']; simpl.
  - unfold InMemoryResources.add.
    destruct (resources σ !! toString uri') eqn:Hreg; simpl; [by left|].
    intros [[<- <-]|[_ ?]]%lookup_insert_Some; [|by left].
    right. by exists uri', contents'.
  - unfold InMemoryResources.update, MutableResource.saveContents.
    destruct (resources σ !! toString uri') as [r|]; [|by left].
    destruct (objects σ !! r); by left.
  - unfold InMemoryResources.resolve.
    destruct (resources σ !! toString uri'); by left.
  - unfold MutableResource.readContents.
    destruct (objects σ !! resource'); by left.
  - unfold MutableResource.saveContents.
    destruct (objects σ !! resource'); by left.
  - unfold MutableResource.dispose.
    destruct (objects σ !! resource') as [[? ? [key']]|]; simpl; [|by left].
    intros [_ ?]%lookup_delete_Some. by left.
Qed.

Lemma after_consistent call σ :
  registry_consistent σ → registry_consistent (after call σ).
Proof.
  intros Hcons key resource
    [Hold|(uri' & contents' & -> & <- & Hfree & ->)]%after_entry_origin.
  - destruct (Hcons _ _ Hold) as (self & Hlive & Huri & Hdispose).
    eexists. split; [by apply after_object|]. done.
  - simpl. rewrite (add_fresh_inv _ _ contents' Hfree). simpl.
    eexists. split; [apply lookup_insert_eq|]. done.
Qed.

Lemma after_all_consistent calls σ :
  registry_consistent σ → registry_consistent (after_all calls σ).
Proof.
  revert σ. induction calls as [|call calls IH]; intros σ Hcons; [done|].
  simpl. by apply IH, after_consistent.
Qed.

Lemma new_consistent : registry_consistent InMemoryResources_new.
Proof.
  intros key resource Hin. simpl in Hin. by rewrite lookup_empty in Hin.
Qed.

(** X9: [update] of an identifier that has no entry raises the "non-existed"
    error and leaves the store as it was: nothing is created. *)
Theorem update_missing_fails σ uri contents :
  resources σ !! toString uri = None →
  InMemoryResources.update uri contents σ
  = (Throw (Error ("Cannot update non-existed in-memory resource '"
                     +:+ toString uri +:+ "'")), σ).
Proof.
  intros Hfree. unfold InMemoryResources.update. by rewrite Hfree.
Qed.

(** X10: [update] of a registered identifier returns the registered instance
    itself, which from then on reads the new content; the registry and all
    other objects stay as they were, and the change notification of the
    instance is fired exactly once. *)
Theorem update_existing σ uri contents resource self :
  resources σ !! toString uri = Some resource →
  objects σ !! resource = Some self →
  ∃ σ1,
    InMemoryResources.update uri contents σ = (Return resource, σ1)
    ∧ MutableResource.readContents resource σ1 = (Return contents, σ1)
    ∧ resources σ1 = resources σ
    ∧ (∀ other, other ≠ resource → objects σ1 !! other = objects σ !! other)
    ∧ fired σ1 = resource :: fired σ.
Proof.
  intros Hreg Hlive.
  unfold InMemoryResources.update, MutableResource.saveContents.
  rewrite Hreg, Hlive. eexists. split; [done|].
  unfold MutableResource.readContents. simpl.
  rewrite lookup_insert_eq. split_and!; [done..| |done].
  intros other Hother. by rewrite lookup_insert_ne.
Qed.

(** X11: in every store reached from a new registry, whatever the calls,
    [resolve] never hands out a dead reference: the resource it returns is a
    live object, carries an identifier that serialises like the one asked
    for, and has the disposal callback that removes this entry. *)
Theorem resolve_returns_registered calls (identifier : URI) resource σ1 :
  InMemoryResources.resolve identifier (after_all calls InMemoryResources_new)
  = (Return resource, σ1) →
  ∃ self,
    objects σ1 !! resource = Some self
    ∧ toString (uri self) = toString identifier
    ∧ dispose self = DeleteResource (toString identifier).
Proof.
  unfold InMemoryResources.resolve.
  destruct (resources (after_all calls InMemoryResources_new) !! toString identifier)
    as [r|] eqn:Hreg; [|done].
  intros [= -> <-].
  by apply (after_all_consistent calls _ new_consistent).
Qed.

(** X12: in every store reached from a new registry, an instance is
    registered under one identifier at most: two identifiers that resolve to
    the same instance serialise alike. *)
Theorem resolve_injective calls uri uri' resource σ1 σ2 :
  InMemoryResources.resolve uri (after_all calls InMemoryResources_new)
  = (Return resource, σ1) →
  InMemoryResources.resolve uri' (after_all calls InMemoryResources_new)
  = (Return resource, σ2) →
  toString uri = toString uri'.
Proof.
  unfold InMemoryResources.resolve.
  destruct (resources (after_all calls InMemoryResources_new) !! toString uri)
    as [r|] eqn:Hreg; [|done].
  destruct (resources (after_all calls InMemoryResources_new) !! toString uri')
    as [r'|] eqn:Hreg'; [|done].
  intros [= -> _] [= -> _].
  destruct (after_all_consistent calls _ new_consistent _ _ Hreg)
    as (self & Hlive & Huri & _).
  destruct (after_all_consistent calls _ new_consistent _ _ Hreg')
    as (self' & Hlive' & Huri' & _).
  congruence.
Qed.

(** X13: only an [add] under an identifier, or the [dispose] of an object
    made under it, changes the registry entry of that identifier; every
    other call, and the same calls under other identifiers, leave it as it
    was. *)
Theorem after_entry_unchanged call σ key :
  aims_at key call σ = false →
  resources (after call σ) !! key = resources σ !! key.
Proof.
  intros Haim.
  destruct call as [uri' contents'|uri' contents'|uri'|resource'
                   |resource' contents'|resource']; simpl in *.
  - apply bool_decide_eq_false in Haim. unfold InMemoryResources.add.
    destruct (resources σ !! toString uri'); simpl; [done|].
    by rewrite lookup_insert_ne.
  - unfold InMemoryResources.update, MutableResource.saveContents.
    destruct (resources σ !! toString uri') as [r|]; [|done].
    by destruct (objects σ !! r).
  - unfold InMemoryResources.resolve.
    by destruct (resources σ !! toString uri').
  - unfold MutableResource.readContents.
    by destruct (objects σ !! resource').
  - unfold MutableResource.saveContents.
    by destruct (objects σ !! resource').
  - unfold MutableResource.dispose.
    destruct (objects σ !! resource') as [[? ? [key']]|]; simpl in *; [|done].
    apply bool_decide_eq_false in Haim. by rewrite lookup_delete_ne.
Qed.
End InMemoryMore.

Section InMemoryLifecycle.
Implicit Types (σ : Store) (this resource : loc) (self : MutableResource)
  (call : Call) (calls : list Call) (key : string).

(** X14: an identifier can be registered again once its resource was
    disposed: after [add], any calls and the [dispose] of the resource, a
    further [add] under the identifier succeeds with a new instance, distinct
    from the disposed one; [resolve] returns the new instance with the new
    content, while the disposed instance still reads what was last saved into
    it. *)
Theorem add_again_after_dispose
    σ uri contents resource σ1 calls σ3 contents' :
  InMemoryResources.add uri contents σ = (Return resource, σ1) →
  MutableResource.dispose resource (after_all calls σ1) = (Return (), σ3) →
  ∃ resource' σ4,
    InMemoryResources.add uri contents' σ3 = (Return resource', σ4)
    ∧ resource' ≠ resource
    ∧ InMemoryResources.resolve uri σ4 = (Return resource', σ4)
    ∧ MutableResource.readContents resource' σ4 = (Return contents', σ4)
    ∧ MutableResource.readContents resource σ4
      = (Return (last_saved resource contents calls σ1), σ4).
Proof.
  intros Hadd Hdispose.
  pose proof (add_returns_inv _ _ _ _ _ Hadd) as Hfree.
  rewrite (add_fresh_inv _ _ contents Hfree) in Hadd.
  injection Hadd as <- <-.
  set (resource := fresh (dom (objects σ))) in *.
  set (σ1 := {| objects := _ |}) in *.
  assert (objects σ1 !! resource
          = Some {| uri := uri; contents := contents;
                    dispose := DeleteResource (toString uri) |}) as Hlive
    by apply lookup_insert_eq.
  apply (after_all_object calls) in Hlive. simpl in Hlive.
  unfold MutableResource.dispose in Hdispose.
  rewrite Hlive in Hdispose. simpl in Hdispose. injection Hdispose as <-.
  set (σ3 := {| objects := objects (after_all calls σ1) |}).
  assert (resources σ3 !! toString uri = None) as Hgone
    by apply lookup_delete_eq.
  assert (objects σ3 !! resource
          = Some {| uri := uri;
                    contents := last_saved resource contents calls σ1;
                    dispose := DeleteResource (toString uri) |}) as Hlive3
    by done.
  eexists _, _. split; [by apply add_fresh_inv|].
  assert (fresh (dom (objects σ3)) ≠ resource) as Hnew.
  { intros Heq. pose proof (new_is_fresh σ3) as Hnone. congruence. }
  split_and!; [done|..].
  - unfold InMemoryResources.resolve. simpl. by rewrite lookup_insert_eq.
  - unfold MutableResource.readContents. simpl. by rewrite lookup_insert_eq.
  - unfold MutableResource.readContents. simpl.
    rewrite lookup_insert_ne; [|done]. simpl in Hlive3. by rewrite Hlive3.
Qed.

(** X15: [dispose] of a live resource returns normally and touches nothing
    but the registry (no object, no notification); disposing twice is the
    same as disposing once. *)
Theorem dispose_idempotent σ this self :
  objects σ !! this = Some self →
  ∃ σ1,
    MutableResource.dispose this σ = (Return (), σ1)
    ∧ objects σ1 = objects σ
    ∧ fired σ1 = fired σ
    ∧ MutableResource.dispose this σ1 = (Return (), σ1).
Proof.
  intros Hlive. unfold MutableResource.dispose. rewrite Hlive.
  destruct (dispose self) as [key] eqn:Hkey. simpl.
  eexists. split_and!; [done..|]. simpl. rewrite Hlive, Hkey. simpl.
  by rewrite delete_delete_eq.
Qed.

(** One call fires the notification of a live resource once if it saves into
    it, and not at all otherwise. *)
Lemma after_notified call σ this self :
  objects σ !! this = Some self →
  notified this (after call σ)
  = match saved_by this call σ with Some _ => 1 | None => 0 end
    + notified this σ.
Proof.
  intros Hlive.
  assert (∀ resource contents',
    notified this (MutableResource.saveContents resource contents' σ).2
    = (if bool_decide (resource = this) then 1 else 0) + notified this σ)
    as Hsave.
  { intros resource contents'. unfold MutableResource.saveContents, notified.
    case_bool_decide as Heq.
    - subst resource. rewrite Hlive. simpl. by rewrite filter_cons_True.
    - destruct (objects σ !! resource); simpl; [|done].
      by rewrite filter_cons_False. }
  destruct call as [uri' contents'|uri' contents'|uri'|resource'
                   |resource' contents'|resource']; simpl.
  - unfold InMemoryResources.add.
    by destruct (resources σ !! toString uri').
  - unfold InMemoryResources.update.
    destruct (resources σ !! toString uri') as [resource|] eqn:Hreg; simpl.
    + specialize (Hsave resource contents').
      destruct (MutableResource.saveContents resource contents' σ)
        as [outcome σ1]. simpl in *. rewrite Hsave.
      repeat case_bool_decide; simpl; congruence.
    + done.
  - unfold InMemoryResources.resolve.
    by destruct (resources σ !! toString uri').
  - unfold MutableResource.readContents.
    by destruct (objects σ !! resource').
  - rewrite Hsave. by case_bool_decide.
  - unfold MutableResource.dispose.
    destruct (objects σ !! resource') as [[? ? []]|]; by simpl.
Qed.

(** X16: the change notification of a live resource is fired exactly once
    for every call that saves into it ([saveContents] on it, or [update] of
    the identifier it is registered under), and by no other call. *)
Theorem notified_once_per_save calls σ this self :
  objects σ !! this = Some self →
  notified this (after_all calls σ) = saves this calls σ + notified this σ.
Proof.
  revert σ self. induction calls as [|call calls IH]; intros σ self Hlive.
  - done.
  - simpl. rewrite (IH _ _ (after_object call σ this self Hlive)).
    rewrite (after_notified call σ this self Hlive). lia.
Qed.
End InMemoryLifecycle.

(** ** The in-memory classes behind the interfaces *)

Section InMemoryInterfacesTheorems.
Context {Change ResourceVersion : Type} (stringify : Change → string).

Implicit Types (σ : Store) (this resource : loc) (self : MutableResource)
  (context : Resource.SaveContext Change ResourceVersion)
  (token : option (CancellationToken Store)).

(** X17: [Resource.save] on a live in-memory resource, when cancellation is
    not requested, is always one full save, also when changes are present
    (the class has no incremental save): the resource then reads
    [context.content], its change notification was fired once, and the
    registry is as before. *)
Theorem save_in_memory_resource σ this self context token :
  objects σ !! this = Some self →
  match token with
  | Some cancellation => isCancellationRequested cancellation σ = false
  | None => True
  end →
  ∃ σ1,
    Resource.save stringify
      (MutableResource_as_Resource (Change := Change) this self)
      context token σ
    = (Return (), σ1,
       [Resource.CallSaveContents (Resource.content context)
          (Resource.options context)])
    ∧ MutableResource.readContents this σ1
      = (Return (Resource.content context), σ1)
    ∧ resources σ1 = resources σ
    ∧ fired σ1 = this :: fired σ.
Proof.
  intros Hlive Htoken.
  assert (Resource.trySaveContentChanges stringify
            (MutableResource_as_Resource (Change := Change)
               (ResourceVersion := ResourceVersion) this self) context σ
          = (Return false, σ, [])) as Htry.
  { apply trySaveContentChanges_not_attempted.
    intros (changes & f & _ & Hnone & _). discriminate Hnone. }
  rewrite (save_after_failed_attempt stringify
             (MutableResource_as_Resource this self) context token σ σ []
             _ eq_refl Htry).
  assert (match token with
          | Some cancellation => isCancellationRequested cancellation σ
          | None => false
          end = false) as ->
    by (by destruct token).
  unfold MutableResource.saveContents. rewrite Hlive. simpl.
  eexists. split; [done|].
  unfold MutableResource.readContents. simpl. by rewrite lookup_insert_eq.
Qed.

(** X18: a provider whose resolvers reject up to the in-memory registry
    returns the instance registered under the identifier, seen as a
    [Resource], and asks no resolver behind the registry; when the registry
    is its last resolver and has no entry either, the registry's own "does
    not exist" error is dropped like any other and the provider's "not
    registered" error is raised instead. *)
Theorem get_from_in_memory_registry
    (this : DefaultResourceProvider.DefaultResourceProvider
              Change ResourceVersion Store)
    tried (identifier : URI) σ σ1 :
  DefaultResourceProvider.all_reject tried identifier σ = Some σ1 →
  (∀ rest resource self,
     DefaultResourceProvider.getContributions this
     = tried ++ InMemoryResources_as_ResourceResolver :: rest →
     resources σ1 !! toString identifier = Some resource →
     objects σ1 !! resource = Some self →
     DefaultResourceProvider.get this identifier σ
     = (Return (MutableResource_as_Resource resource self), σ1,
        DefaultResourceProvider.asked identifier 0 (S (length tried))))
  ∧ (DefaultResourceProvider.getContributions this
     = tried ++ [InMemoryResources_as_ResourceResolver] →
     resources σ1 !! toString identifier = None →
     DefaultResourceProvider.get this identifier σ
     = (Throw (Error ("A resource provider for '" +:+ toString identifier
                        +:+ "' is not registered.")), σ1,
        DefaultResourceProvider.asked identifier 0 (S (length tried)))).
Proof.
  intros Hrejected. unfold DefaultResourceProvider.get,
    DefaultResourceProvider.asked. split.
  - intros rest resource self -> Hreg Hlive.
    rewrite (get_from_skips_rejecting _ _ _ _ _ _ Hrejected).
    rewrite seq_S, fmap_app. simpl.
    unfold try_catch, invoke, InMemoryResources.resolve. simpl.
    by rewrite Hreg, Hlive.
  - intros -> Hfree.
    rewrite (get_from_skips_rejecting _ _ _ _ _ _ Hrejected).
    rewrite seq_S, fmap_app. simpl.
    unfold try_catch, invoke, throw, InMemoryResources.resolve. simpl.
    by rewrite Hfree.
Qed.
End InMemoryInterfacesTheorems.

Lemma update_missing_fails_witness :
  InMemoryResources.update Fixtures.file_uri "final" InMemoryResources_new
  = (Throw (Error
       "Cannot update non-existed in-memory resource 'file:///notes.txt'"),
     InMemoryResources_new).
Proof.
  apply (update_missing_fails InMemoryResources_new Fixtures.file_uri "final").
  vm_compute. reflexivity.
Defined.

Lemma update_existing_witness :
  ∃ σ1,
    InMemoryResources.update Fixtures.file_uri "final" Fixtures.one_note
    = (Return 1%positive, σ1)
    ∧ MutableResource.readContents 1%positive σ1 = (Return "final", σ1)
    ∧ resources σ1 = resources Fixtures.one_note
    ∧ (∀ other, other ≠ 1%positive →
       objects σ1 !! other = objects Fixtures.one_note !! other)
    ∧ fired σ1 = 1%positive :: fired Fixtures.one_note.
Proof.
  apply (update_existing Fixtures.one_note Fixtures.file_uri "final"
           1%positive Fixtures.note);
    vm_compute; reflexivity.
Defined.

Lemma resolve_returns_registered_witness :
  ∃ self,
    objects (after_all [DoAdd Fixtures.file_uri "draft"]
               InMemoryResources_new) !! 1%positive = Some self
    ∧ toString (uri self) = "file:///notes.txt"
    ∧ dispose self = DeleteResource "file:///notes.txt".
Proof.
  apply (resolve_returns_registered [DoAdd Fixtures.file_uri "draft"]
           Fixtures.file_uri 1%positive).
  vm_compute. reflexivity.
Defined.

Lemma resolve_injective_witness :
  toString Fixtures.file_uri = toString (mkURI "file:///notes.txt").
Proof.
  apply (resolve_injective [DoAdd Fixtures.file_uri "draft"]
           Fixtures.file_uri (mkURI "file:///notes.txt") 1%positive
           (after_all [DoAdd Fixtures.file_uri "draft"] InMemoryResources_new)
           (after_all [DoAdd Fixtures.file_uri "draft"] InMemoryResources_new));
    vm_compute; reflexivity.
Defined.

Lemma after_entry_unchanged_witness :
  resources (after (DoAdd (mkURI "file:///todo.txt") "milk")
               Fixtures.one_note) !! "file:///notes.txt"
  = resources Fixtures.one_note !! "file:///notes.txt".
Proof.
  apply (after_entry_unchanged (DoAdd (mkURI "file:///todo.txt") "milk")
           Fixtures.one_note "file:///notes.txt").
  vm_compute. reflexivity.
Defined.

Lemma add_again_after_dispose_witness :
  ∃ resource' σ4,
    InMemoryResources.add Fixtures.file_uri "again"
      (MutableResource.dispose 1%positive
         (after_all [DoUpdate Fixtures.file_uri "final"]
            Fixtures.one_note)).2
    = (Return resource', σ4)
    ∧ resource' ≠ 1%positive
    ∧ InMemoryResources.resolve Fixtures.file_uri σ4 = (Return resource', σ4)
    ∧ MutableResource.readContents resource' σ4 = (Return "again", σ4)
    ∧ MutableResource.readContents 1%positive σ4
      = (Return (last_saved 1%positive "draft"
                   [DoUpdate Fixtures.file_uri "final"] Fixtures.one_note),
         σ4).
Proof.
  apply (add_again_after_dispose InMemoryResources_new Fixtures.file_uri
           "draft" 1%positive Fixtures.one_note
           [DoUpdate Fixtures.file_uri "final"]);
    vm_compute; reflexivity.
Defined.

Lemma dispose_idempotent_witness :
  ∃ σ1,
    MutableResource.dispose 1%positive Fixtures.one_note = (Return (), σ1)
    ∧ objects σ1 = objects Fixtures.one_note
    ∧ fired σ1 = fired Fixtures.one_note
    ∧ MutableResource.dispose 1%positive σ1 = (Return (), σ1).
Proof.
  apply (dispose_idempotent Fixtures.one_note 1%positive Fixtures.note).
  vm_compute. reflexivity.
Defined.

Lemma notified_once_per_save_witness :
  notified 1%positive
    (after_all [DoUpdate Fixtures.file_uri "a"; DoSaveContents 1%positive "b";
                DoDispose 1%positive; DoSaveContents 1%positive "c";
                DoReadContents 1%positive] Fixtures.one_note)
  = 3.
Proof.
  rewrite (notified_once_per_save
             [DoUpdate Fixtures.file_uri "a"; DoSaveContents 1%positive "b";
              DoDispose 1%positive; DoSaveContents 1%positive "c";
              DoReadContents 1%positive]
             Fixtures.one_note 1%positive Fixtures.note);
    vm_compute; reflexivity.
Defined.

Lemma save_in_memory_resource_witness :
  ∃ σ1,
    Resource.save Fixtures.stringify
      (MutableResource_as_Resource (ResourceVersion := unit) 1%positive
         Fixtures.note)
      Fixtures.small_edit (Some {| isCancellationRequested := λ _, false |})
      Fixtures.one_note
    = (Return (), σ1, [Resource.CallSaveContents "hello, wide world" None])
    ∧ MutableResource.readContents 1%positive σ1
      = (Return "hello, wide world", σ1)
    ∧ resources σ1 = resources Fixtures.one_note
    ∧ fired σ1 = 1%positive :: fired Fixtures.one_note.
Proof.
  apply (save_in_memory_resource Fixtures.stringify Fixtures.one_note
           1%positive Fixtures.note Fixtures.small_edit
           (Some {| isCancellationRequested := λ _, false |}));
    vm_compute; reflexivity.
Defined.

Lemma get_from_in_memory_registry_witness :
  DefaultResourceProvider.get
    {| DefaultResourceProvider.getContributions :=
         [Examples.elsewhere; Examples.in_memory; Examples.elsewhere] |}
    Fixtures.file_uri Fixtures.one_note
  = (Return (MutableResource_as_Resource 1%positive Fixtures.note),
     Fixtures.one_note,
     [DefaultResourceProvider.CallResolve 0 Fixtures.file_uri;
      DefaultResourceProvider.CallResolve 1 Fixtures.file_uri])
  ∧ DefaultResourceProvider.get
      {| DefaultResourceProvider.getContributions :=
           [Examples.elsewhere; Examples.in_memory] |}
      (mkURI "file:///todo.txt") Fixtures.one_note
    = (Throw (Error
         "A resource provider for 'file:///todo.txt' is not registered."),
       Fixtures.one_note,
       [DefaultResourceProvider.CallResolve 0 (mkURI "file:///todo.txt");
        DefaultResourceProvider.CallResolve 1 (mkURI "file:///todo.txt")]).
Proof.
  split.
  - apply (proj1 (get_from_in_memory_registry
             {| DefaultResourceProvider.getContributions :=
                  [Examples.elsewhere; Examples.in_memory;
                   Examples.elsewhere] |}
             [Examples.elsewhere] Fixtures.file_uri Fixtures.one_note
             Fixtures.one_note eq_refl)
             [Examples.elsewhere] 1%positive Fixtures.note eq_refl);
      vm_compute; reflexivity.
  - apply (proj2 (get_from_in_memory_registry
             {| DefaultResourceProvider.getContributions :=
                  [Examples.elsewhere; Examples.in_memory] |}
             [Examples.elsewhere] (mkURI "file:///todo.txt")
             Fixtures.one_note Fixtures.one_note eq_refl) eq_refl).
    vm_compute. reflexivity.
Defined.

(** ** The resolver chain, continued *)

Section GetMore.
Context {Change ResourceVersion World : Type}.

Implicit Types
  (resolvers tried rest : list (ResourceResolver Change ResourceVersion World))
  (w : World).

Lemma get_from_outcome resolvers (identifier : URI) first w :
  (∃ tried resolver rest w1 resource w2,
     resolvers = tried ++ resolver :: rest
     ∧ DefaultResourceProvider.all_reject tried identifier w = Some w1
     ∧ resolve resolver identifier w1 = (Return resource, w2)
     ∧ DefaultResourceProvider.get_from first resolvers identifier w
       = (Return resource, w2,
          DefaultResourceProvider.asked identifier first (S (length tried))))
  ∨ (∃ w1,
       DefaultResourceProvider.all_reject resolvers identifier w = Some w1
       ∧ DefaultResourceProvider.get_from first resolvers identifier w
         = (Throw (Error ("A resource provider for '" +:+ toString identifier
                            +:+ "' is not registered.")), w1,
            DefaultResourceProvider.asked identifier first (length resolvers))).
Proof.
  revert first w.
  induction resolvers as [|resolver resolvers IH]; intros first w.
  - right. by exists w.
  - simpl. unfold try_catch, invoke.
    destruct (resolve resolver identifier w) as [[resource|e] w0] eqn:Hrun.
    + left. exists [], resolver, resolvers, w, resource, w0.
      simpl. by rewrite Hrun.
    + destruct (IH (S first) w0)
        as [(tried & r & rest & w1 & resource & w2 & -> & Hrej & Hres & Hget)
           |(w1 & Hrej & Hget)].
      * left. exists (resolver :: tried), r, rest, w1, resource, w2.
        split_and!; [done| |done|by rewrite Hget].
        simpl. by rewrite Hrun.
      * right. exists w1. split; [done|]. by rewrite Hget.
Qed.

(** X19: every run of [get] is of one of two kinds.  Either it returns a
    resource: then some resolver provided exactly that resource, all
    resolvers registered before it had rejected, and none behind it was
    asked.  Or it raises: then all resolvers were asked once each, in order,
    all rejected, and the error is the "not registered" one, never an error
    of a resolver. *)
Theorem get_outcome
    (this : DefaultResourceProvider.DefaultResourceProvider
              Change ResourceVersion World)
    (identifier : URI) w :
  (∃ tried resolver rest w1 resource w2,
     DefaultResourceProvider.getContributions this
     = tried ++ resolver :: rest
     ∧ DefaultResourceProvider.all_reject tried identifier w = Some w1
     ∧ resolve resolver identifier w1 = (Return resource, w2)
     ∧ DefaultResourceProvider.get this identifier w
       = (Return resource, w2,
          DefaultResourceProvider.asked identifier 0 (S (length tried))))
  ∨ (∃ w1,
       DefaultResourceProvider.all_reject
         (DefaultResourceProvider.getContributions this) identifier w
       = Some w1
       ∧ DefaultResourceProvider.get this identifier w
         = (Throw (Error ("A resource provider for '" +:+ toString identifier
                            +:+ "' is not registered.")), w1,
            DefaultResourceProvider.asked identifier 0
              (length (DefaultResourceProvider.getContributions this)))).
Proof. apply get_from_outcome. Qed.
End GetMore.
